(** * GazeTracking: pupil localisation, threshold calibration and gaze queries

    A shallow embedding of the four modules of the [gaze_tracking] package
    ([pupil.py], [calibration.py], [eye.py], [gaze_tracking.py]) and the
    properties of the calibration and query logic that follow from the code.

    Conventions of the embedding:
    - Python exceptions are values of [result]; a method that mutates the
      shared [Calibration] object returns the object after the call together
      with its outcome, so that a mutation made before an exception escapes
      stays visible.
    - Python floats are rationals ([Q]) and their arithmetic is exact, except
      where the code picks a threshold by comparing computed floats: there
      the keys are rounded as binary64 does ([round_binary64]). [int(...)] is
      truncation toward zero.
    - A grayscale image is a shape and a pixel function.
    - OpenCV's filters, contour finder and moments, and [math.hypot], are
      external to the package: they are the fields of the class [External],
      together with the few facts about them the package relies on. OpenCV
      rejects an empty image with [cv2.error]; that is written out where the
      package makes its first OpenCV call on an eye frame. *)

From Stdlib Require Import ZArith QArith Qabs List Bool Lia Lqa Permutation Sorted.
Import ListNotations.
Local Open Scope Z_scope.

(** ** Python values, exceptions and builtins *)

Inductive exn : Type :=
| ZeroDivisionError
| IndexError
| TypeError
| ValueError
| Cv2Error.

Inductive result (A : Type) : Type :=
| Ok (a : A)
| Raise (e : exn).
Arguments Ok {A} a.
Arguments Raise {A} e.

Definition bind {A B : Type} (r : result A) (k : A -> result B) : result B :=
  match r with
  | Ok a => k a
  | Raise e => Raise e
  end.

Notation "x <- r ;; k" := (bind r (fun x => k))
  (at level 61, r at next level, right associativity).

(** [a / b] under [from __future__ import division]. *)
Definition truediv (a b : Q) : result Q :=
  if Qeq_bool b 0 then Raise ZeroDivisionError else Ok (a / b)%Q.

(** [int(q)]: truncation toward zero. *)
Definition py_int (q : Q) : Z := Z.quot (Qnum q) (Z.pos (Qden q)).

Definition Qlt_bool (a b : Q) : bool := negb (Qle_bool b a).

(** Rounding to the nearest binary64 float, ties to even; the values the
    package compares are far from the subnormal and overflow ranges. *)
Definition round_half_even (n d : Z) : Z :=
  let q := n / d in
  let r := n mod d in
  match 2 * r ?= d with
  | Lt => q
  | Gt => q + 1
  | Eq => if Z.even q then q else q + 1
  end.

Definition round_positive (n d : Z) : Q :=
  let e0 := Z.log2 n - Z.log2 d in
  let above := if 0 <=? e0 then d * 2 ^ e0 <=? n else d <=? n * 2 ^ (- e0) in
  let e := if above then e0 else e0 - 1 in
  let shift := e - 52 in
  if 0 <=? shift then
    inject_Z (round_half_even n (d * 2 ^ shift) * 2 ^ shift)
  else
    Qred (Qmake (round_half_even (n * 2 ^ (- shift)) d)
                (Z.to_pos (2 ^ (- shift)))).

Definition round_binary64 (q : Q) : Q :=
  match Qnum q with
  | 0 => 0%Q
  | Z.pos n => round_positive (Z.pos n) (Z.pos (Qden q))
  | Z.neg n => Qopp (round_positive (Z.pos n) (Z.pos (Qden q)))
  end.

(** Normalisation of one slice bound against a length, as [slice.indices]. *)
Definition slice_index (n : nat) (i : Z) : nat :=
  if i <? 0 then Z.to_nat (Z.max (i + Z.of_nat n) 0)
  else Z.to_nat (Z.min i (Z.of_nat n)).

(** [(lo, len)] of the slice [a:b] of a sequence of length [n]. *)
Definition slice_bounds (n : nat) (a b : Z) : nat * nat :=
  let lo := slice_index n a in
  let hi := slice_index n b in
  (lo, (hi - lo)%nat).

(** [l[i]] with Python's negative indices. *)
Definition py_index {A : Type} (l : list A) (i : Z) : result A :=
  let n := Z.of_nat (length l) in
  let j := if i <? 0 then i + n else i in
  if (j <? 0) || (n <=? j) then Raise IndexError
  else match nth_error l (Z.to_nat j) with
       | Some x => Ok x
       | None => Raise IndexError
       end.

(** [range(start, stop, step)] for a positive step. *)
Definition py_range (start stop step : Z) : list Z :=
  map (fun i => start + step * Z.of_nat i)
      (seq 0 (Z.to_nat ((stop - start + step - 1) / step))).

(** [sum(l)] on integers. *)
Definition py_sum (l : list Z) : Z := fold_left Z.add l 0.

(** [min(l, key=key)]: the first element whose key is minimal; a later
    element replaces the current optimum only when its key is strictly
    smaller. *)
Fixpoint min_from {A : Type} (key : A -> Q) (best : A) (l : list A) : A :=
  match l with
  | [] => best
  | x :: l' => min_from key (if Qlt_bool (key x) (key best) then x else best) l'
  end.

Definition py_min {A : Type} (key : A -> Q) (l : list A) : result A :=
  match l with
  | [] => Raise ValueError
  | x :: l' => Ok (min_from key x l')
  end.

(** [sorted(l, key=key)]: stable, ascending. *)
Fixpoint insert_by {A : Type} (key : A -> Q) (x : A) (l : list A) : list A :=
  match l with
  | [] => [x]
  | y :: l' => if Qle_bool (key x) (key y) then x :: y :: l'
               else y :: insert_by key x l'
  end.

Fixpoint py_sorted {A : Type} (key : A -> Q) (l : list A) : list A :=
  match l with
  | [] => []
  | x :: l' => insert_by key x (py_sorted key l')
  end.

(** ** Grayscale images *)

Record ndarray : Type := mk_ndarray {
  height : nat;
  width : nat;
  px : nat -> nat -> Z
}.

Definition shape (a : ndarray) : nat * nat := (height a, width a).

(** [a.size == 0] *)
Definition is_empty (a : ndarray) : bool :=
  (height a =? 0)%nat || (width a =? 0)%nat.

(** [a[r0:r1, c0:c1]] *)
Definition slice2 (a : ndarray) (r0 r1 c0 c1 : Z) : ndarray :=
  let '(rlo, rlen) := slice_bounds (height a) r0 r1 in
  let '(clo, clen) := slice_bounds (width a) c0 c1 in
  {| height := rlen; width := clen;
     px := fun i j => px a (i + rlo)%nat (j + clo)%nat |}.

Fixpoint sum_upto (n : nat) (g : nat -> Z) : Z :=
  match n with
  | O => 0
  | S k => sum_upto k g + g k
  end.

(** [cv2.countNonZero] *)
Definition countNonZero (a : ndarray) : Z :=
  sum_upto (height a)
    (fun i => sum_upto (width a) (fun j => if px a i j =? 0 then 0 else 1)).

(** [cv2.threshold(a, thresh, 255, cv2.THRESH_BINARY)[1]] *)
Definition cv2_threshold (a : ndarray) (thresh : Z) : ndarray :=
  {| height := height a; width := width a;
     px := fun i j => if px a i j >? thresh then 255 else 0 |}.

(** ** External collaborators *)

Definition point : Type := (Z * Z)%type.
Definition contour : Type := list point.

Record Moments : Type := mk_moments { m00 : Q; m10 : Q; m01 : Q }.

Class External : Type := {
  (** [cv2.bilateralFilter(_, 10, 15, 15)] on an image that is not empty *)
  bilateralFilter : ndarray -> ndarray;
  (** [cv2.erode(_, np.ones((3, 3)), iterations=3)] *)
  erode : ndarray -> ndarray;
  (** [cv2.findContours(_, cv2.RETR_TREE, cv2.CHAIN_APPROX_NONE)[-2]] *)
  findContours : ndarray -> list contour;
  contourArea : contour -> Q;
  moments : contour -> Moments;
  (** the polygon masking of [Eye._isolate]: [np.full], [cv2.fillPoly] and
      [cv2.bitwise_not] applied to the whole frame *)
  mask_region : ndarray -> list point -> ndarray;
  (** [math.hypot] on integer differences *)
  hypot : Z -> Z -> Q;
  bilateralFilter_shape :
    forall a, is_empty a = false -> shape (bilateralFilter a) = shape a;
  erode_shape : forall a, is_empty a = false -> shape (erode a) = shape a;
  mask_region_shape : forall a r, shape (mask_region a r) = shape a;
  (** the area of a contour is its zeroth moment, up to orientation *)
  contourArea_m00 : forall c, (contourArea c == Qabs (m00 (moments c)))%Q;
  hypot_zero : forall dx dy, (hypot dx dy == 0)%Q <-> dx = 0 /\ dy = 0
}.

(** ** pupil.py *)

Module Pupil.

Record t : Type := mk {
  iris_frame : ndarray;
  threshold : Z;
  x : option Z;
  y : option Z
}.

Section WithExternal.
Context {E : External}.

(** [cv2.bilateralFilter(eye_frame, 10, 15, 15)]: OpenCV raises [cv2.error]
    on an empty image. *)
Definition cv2_bilateralFilter (eye_frame : ndarray) : result ndarray :=
  if is_empty eye_frame then Raise Cv2Error
  else Ok (bilateralFilter eye_frame).

Definition image_processing (eye_frame : ndarray) (threshold : Z)
    : result ndarray :=
  new_frame <- cv2_bilateralFilter eye_frame ;;
  let new_frame := erode new_frame in
  Ok (cv2_threshold new_frame threshold).

(** [detect_iris], run by [__init__] on a pupil whose [x] and [y] are [None].
    An exception of [image_processing] escapes: it is raised before the
    [try] block. The [try] block assigns [x] before it computes [y];
    [IndexError] and [ZeroDivisionError], the only exceptions its body can
    raise, are swallowed. *)
Definition detect_iris (eye_frame : ndarray) (threshold : Z) : result t :=
  iris <- image_processing eye_frame threshold ;;
  let contours := findContours iris in
  let contours := py_sorted contourArea contours in
  match py_index contours (-2) with
  | Raise _ => Ok (mk iris threshold None None)
  | Ok c =>
      let m := moments c in
      match truediv (m10 m) (m00 m) with
      | Raise _ => Ok (mk iris threshold None None)
      | Ok qx =>
          match truediv (m01 m) (m00 m) with
          | Raise _ => Ok (mk iris threshold (Some (py_int qx)) None)
          | Ok qy =>
              Ok (mk iris threshold (Some (py_int qx)) (Some (py_int qy)))
          end
      end
  end.

Definition new (eye_frame : ndarray) (threshold : Z) : result t :=
  detect_iris eye_frame threshold.

End WithExternal.
End Pupil.

(** ** calibration.py *)

Module Calibration.

Record t : Type := mk {
  nb_frames : nat;
  thresholds_left : list Z;
  thresholds_right : list Z
}.

Definition init : t := mk 20 [] [].

Definition is_complete (self : t) : bool :=
  (nb_frames self <=? length (thresholds_left self))%nat
  && (nb_frames self <=? length (thresholds_right self))%nat.

(** [int(sum(l) / len(l))] *)
Definition mean (l : list Z) : result Z :=
  q <- truediv (inject_Z (py_sum l)) (inject_Z (Z.of_nat (length l))) ;;
  Ok (py_int q).

Definition threshold (self : t) (side : Z) : result (option Z) :=
  if side =? 0 then
    v <- mean (thresholds_left self) ;; Ok (Some v)
  else if side =? 1 then
    v <- mean (thresholds_right self) ;; Ok (Some v)
  else Ok None.

Definition iris_size (frame : ndarray) : result Q :=
  let frame := slice2 frame 5 (-5) 5 (-5) in
  let '(height, width) := shape frame in
  let nb_pixels := Z.of_nat height * Z.of_nat width in
  let nb_blacks := nb_pixels - countNonZero frame in
  truediv (inject_Z nb_blacks) (inject_Z nb_pixels).

(** The literal [0.48]. *)
Definition average_iris_size : Q := round_binary64 (48 # 100).

(** [abs(p[1] - average_iris_size)], the key of [min], on the float stored
    for a trial: [iris_size] is the exact quotient, the float is its
    rounding, and the subtraction rounds once more. *)
Definition distance (size : Q) : Q :=
  Qabs (round_binary64 (round_binary64 size - average_iris_size)).

Section WithExternal.
Context {E : External}.

(** The body of the [for] loop of [find_best_threshold]:
    [iris_size(image_processing(eye_frame, threshold))]. *)
Definition trial (eye_frame : ndarray) (threshold : Z) : result Q :=
  iris_frame <- Pupil.image_processing eye_frame threshold ;;
  iris_size iris_frame.

(** The [for] loop of [find_best_threshold]: the dictionary [trials] keeps
    insertion order and the candidate thresholds are distinct, so each
    assignment adds one item at the end. *)
Fixpoint trials_loop (eye_frame : ndarray) (candidates : list Z)
    (trials : list (Z * Q)) : result (list (Z * Q)) :=
  match candidates with
  | [] => Ok trials
  | threshold :: rest =>
      s <- trial eye_frame threshold ;;
      trials_loop eye_frame rest (trials ++ [(threshold, s)])
  end.

Definition find_best_threshold (eye_frame : ndarray) : result Z :=
  trials <- trials_loop eye_frame (py_range 5 100 5) [] ;;
  best <- py_min (fun p => distance (snd p)) trials ;;
  Ok (fst best).

(** [evaluate] mutates [self]; the calibration after the call is returned
    with the outcome. An exception of [find_best_threshold] escapes before
    anything is appended. *)
Definition evaluate (self : t) (eye_frame : ndarray) (side : Z)
    : t * result unit :=
  match find_best_threshold eye_frame with
  | Raise e => (self, Raise e)
  | Ok threshold =>
      if side =? 0 then
        (mk (nb_frames self) (thresholds_left self ++ [threshold])
            (thresholds_right self), Ok tt)
      else if side =? 1 then
        (mk (nb_frames self) (thresholds_left self)
            (thresholds_right self ++ [threshold]), Ok tt)
      else (self, Ok tt)
  end.

End WithExternal.
End Calibration.

(** ** eye.py *)

Module Eye.

(** [landmarks.part(i)]: the predictor loaded by [GazeTracking.__init__] is
    the 68-point model, so every index the package uses (36 to 47) is
    defined. *)
Definition landmarks : Type := nat -> point.

Definition LEFT_EYE_POINTS : list nat := [36; 37; 38; 39; 40; 41]%nat.
Definition RIGHT_EYE_POINTS : list nat := [42; 43; 44; 45; 46; 47]%nat.

(** An eye built for side 0 or 1. For any other side [_analyze] returns
    before it assigns anything and the object keeps [pupil = None]; that eye
    is [None] in [new] below. *)
Record t : Type := mk {
  frame : ndarray;
  origin : Z * Z;
  center : Q * Q;
  pupil : Pupil.t;
  landmark_points : list point;
  blinking : option Q
}.

Definition _middle_point (p1 p2 : point) : point :=
  (py_int (inject_Z (fst p1 + fst p2) / 2), py_int (inject_Z (snd p1 + snd p2) / 2)).

(** [np.min] and [np.max] of a column of [region]; both callers pass the six
    points of one eye, so the column is never empty. *)
Definition np_min (l : list Z) : Z :=
  match l with
  | [] => 0
  | v :: l' => fold_left Z.min l' v
  end.

Definition np_max (l : list Z) : Z :=
  match l with
  | [] => 0
  | v :: l' => fold_left Z.max l' v
  end.

Definition margin : Z := 5.

Section WithExternal.
Context {E : External}.

(** [_isolate]: the attributes it assigns, as
    [(frame, origin, center, landmark_points)]. *)
Definition _isolate (frame : ndarray) (lm : landmarks) (points : list nat)
    : ndarray * (Z * Z) * (Q * Q) * list point :=
  let region := map lm points in
  let eye := mask_region frame region in
  let min_x := np_min (map fst region) - margin in
  let max_x := np_max (map fst region) + margin in
  let min_y := np_min (map snd region) - margin in
  let max_y := np_max (map snd region) + margin in
  let self_frame := slice2 eye min_y max_y min_x max_x in
  let '(height, width) := shape self_frame in
  (self_frame, (min_x, min_y),
   ((inject_Z (Z.of_nat width) / 2)%Q, (inject_Z (Z.of_nat height) / 2)%Q),
   region).

Definition _blinking_ratio (lm : landmarks) (points : list nat) : option Q :=
  let left := lm (nth 0 points O) in
  let right := lm (nth 3 points O) in
  let top := _middle_point (lm (nth 1 points O)) (lm (nth 2 points O)) in
  let bottom := _middle_point (lm (nth 5 points O)) (lm (nth 4 points O)) in
  let eye_width := hypot (fst left - fst right) (snd left - snd right) in
  let eye_height := hypot (fst top - fst bottom) (snd top - snd bottom) in
  match truediv eye_width eye_height with
  | Ok ratio => Some ratio
  | Raise _ => None
  end.

(** The body of [_analyze] once the side has selected its points. *)
Definition analyze_points (original_frame : ndarray) (lm : landmarks)
    (points : list nat) (side : Z) (calibration : Calibration.t)
    : Calibration.t * result (option t) :=
  let blinking := _blinking_ratio lm points in
  let '(self_frame, origin, center, region) := _isolate original_frame lm points in
  let '(calibration, evaluated) :=
    if negb (Calibration.is_complete calibration)
    then Calibration.evaluate calibration self_frame side
    else (calibration, Ok tt) in
  (calibration,
   _ <- evaluated ;;
   threshold <- Calibration.threshold calibration side ;;
   match threshold with
   | None => Raise TypeError
   | Some threshold =>
       pupil <- Pupil.new self_frame threshold ;;
       Ok (Some (mk self_frame origin center pupil region blinking))
   end).

Definition _analyze (original_frame : ndarray) (lm : landmarks) (side : Z)
    (calibration : Calibration.t) : Calibration.t * result (option t) :=
  if side =? 0 then
    analyze_points original_frame lm LEFT_EYE_POINTS side calibration
  else if side =? 1 then
    analyze_points original_frame lm RIGHT_EYE_POINTS side calibration
  else (calibration, Ok None).

(** [Eye(original_frame, landmarks, side, calibration)] *)
Definition new (original_frame : ndarray) (lm : landmarks) (side : Z)
    (calibration : Calibration.t) : Calibration.t * result (option t) :=
  _analyze original_frame lm side calibration.

End WithExternal.
End Eye.

(** ** gaze_tracking.py *)

Module GazeTracking.

(** The session. An eye left unset by [Eye._analyze] is [None] here, as an
    absent eye is: every query goes through [pupils_located], which is false
    for both. The stored frame is read by [annotated_frame] only and is left
    out. *)
Record t : Type := mk {
  eye_left : option Eye.t;
  eye_right : option Eye.t;
  calibration : Calibration.t
}.

Definition init : t := mk None None Calibration.init.

(** What the collaborators return for one frame: the grayscale conversion
    ([cv2.cvtColor], which returns only on a frame that is not empty) and,
    for each face of [_face_detector], the landmarks [_predictor] gives for
    it. *)
Record observation : Type := mk_observation {
  gray : ndarray;
  faces : list Eye.landmarks
}.

Definition is_some {A : Type} (o : option A) : bool :=
  match o with Some _ => true | None => false end.

Definition pupils_located (self : t) : bool :=
  match eye_left self, eye_right self with
  | Some el, Some er =>
      is_some (Pupil.x (Eye.pupil el)) && is_some (Pupil.y (Eye.pupil el))
      && is_some (Pupil.x (Eye.pupil er)) && is_some (Pupil.y (Eye.pupil er))
  | _, _ => false
  end.

Section WithExternal.
Context {E : External}.

(** [_analyze]: the session after the call and the outcome. [IndexError],
    from [faces[0]] or from anywhere in the [try] block, clears both eyes;
    any other exception escapes, after the assignments made before it. *)
Definition _analyze (self : t) (obs : observation) : t * result unit :=
  let frame := gray obs in
  match py_index (faces obs) 0 with
  | Raise IndexError => (mk None None (calibration self), Ok tt)
  | Raise e => (self, Raise e)
  | Ok lm =>
      match Eye.new frame lm 0 (calibration self) with
      | (cal, Raise IndexError) => (mk None None cal, Ok tt)
      | (cal, Raise e) => (mk (eye_left self) (eye_right self) cal, Raise e)
      | (cal, Ok el) =>
          match Eye.new frame lm 1 cal with
          | (cal', Raise IndexError) => (mk None None cal', Ok tt)
          | (cal', Raise e) => (mk el (eye_right self) cal', Raise e)
          | (cal', Ok er) => (mk el er cal', Ok tt)
          end
      end
  end.

Definition refresh (self : t) (obs : observation) : t * result unit :=
  _analyze self obs.

End WithExternal.

Definition pupil_left_coords (self : t) : option (Z * Z) :=
  if pupils_located self then
    match eye_left self with
    | Some el =>
        match Pupil.x (Eye.pupil el), Pupil.y (Eye.pupil el) with
        | Some px, Some py =>
            Some (fst (Eye.origin el) + px, snd (Eye.origin el) + py)
        | _, _ => None
        end
    | None => None
    end
  else None.

Definition pupil_right_coords (self : t) : option (Z * Z) :=
  if pupils_located self then
    match eye_right self with
    | Some er =>
        match Pupil.x (Eye.pupil er), Pupil.y (Eye.pupil er) with
        | Some px, Some py =>
            Some (fst (Eye.origin er) + px, snd (Eye.origin er) + py)
        | _, _ => None
        end
    | None => None
    end
  else None.

(** [pupil.x / (center[0] * 2 - 10)] of one eye; [pupils_located] has made
    the coordinate an integer. *)
Definition axis_ratio (coord : option Z) (c : Q) : result Q :=
  match coord with
  | Some v => truediv (inject_Z v) (c * 2 - 10)%Q
  | None => Raise TypeError
  end.

Definition horizontal_ratio (self : t) : result (option Q) :=
  if pupils_located self then
    match eye_left self, eye_right self with
    | Some el, Some er =>
        pupil_left <- axis_ratio (Pupil.x (Eye.pupil el)) (fst (Eye.center el)) ;;
        pupil_right <- axis_ratio (Pupil.x (Eye.pupil er)) (fst (Eye.center er)) ;;
        Ok (Some ((pupil_left + pupil_right) / 2)%Q)
    | _, _ => Ok None
    end
  else Ok None.

Definition vertical_ratio (self : t) : result (option Q) :=
  if pupils_located self then
    match eye_left self, eye_right self with
    | Some el, Some er =>
        pupil_left <- axis_ratio (Pupil.y (Eye.pupil el)) (snd (Eye.center el)) ;;
        pupil_right <- axis_ratio (Pupil.y (Eye.pupil er)) (snd (Eye.center er)) ;;
        Ok (Some ((pupil_left + pupil_right) / 2)%Q)
    | _, _ => Ok None
    end
  else Ok None.

(** A comparison of a float with [None] is a [TypeError]. *)
Definition is_right (self : t) : result (option bool) :=
  if pupils_located self then
    r <- horizontal_ratio self ;;
    match r with
    | Some q => Ok (Some (Qle_bool q (65 # 100)))
    | None => Raise TypeError
    end
  else Ok None.

Definition is_left (self : t) : result (option bool) :=
  if pupils_located self then
    r <- horizontal_ratio self ;;
    match r with
    | Some q => Ok (Some (Qle_bool (65 # 100) q))
    | None => Raise TypeError
    end
  else Ok None.

(** [v is not True] *)
Definition is_not_True (v : option bool) : bool :=
  match v with
  | Some true => false
  | _ => true
  end.

(** [is_right() is not True and is_left() is not True]: [is_left] is called
    only when the left operand holds. *)
Definition is_center (self : t) : result (option bool) :=
  if pupils_located self then
    r <- is_right self ;;
    if is_not_True r then
      l <- is_left self ;; Ok (Some (is_not_True l))
    else Ok (Some false)
  else Ok None.

(** [None + x] and [x + None] are [TypeError]s. *)
Definition is_blinking (self : t) : result (option bool) :=
  if pupils_located self then
    match eye_left self, eye_right self with
    | Some el, Some er =>
        match Eye.blinking el, Eye.blinking er with
        | Some bl, Some br =>
            let blinking_ratio := ((bl + br) / 2)%Q in
            Ok (Some (Qlt_bool (38 # 10) blinking_ratio))
        | _, _ => Raise TypeError
        end
    | _, _ => Ok None
    end
  else Ok None.

End GazeTracking.

(** ** Notions used to state the properties *)

(** The number of pixels [iris_size] divides by: those of the frame without
    its 5-pixel border. *)
Definition trimmed_pixels (a : ndarray) : Z :=
  Z.of_nat (height a - 10) * Z.of_nat (width a - 10).

(** Ascending order of keys, the order [sorted] produces. *)
Definition key_le {A : Type} (key : A -> Q) (a b : A) : Prop :=
  (key a <= key b)%Q.

(** The calibration with one more sample on a side. *)
Definition add_sample (cal : Calibration.t) (side : Z) (t : Z) : Calibration.t :=
  if side =? 0 then
    Calibration.mk (Calibration.nb_frames cal)
      (Calibration.thresholds_left cal ++ [t]) (Calibration.thresholds_right cal)
  else
    Calibration.mk (Calibration.nb_frames cal)
      (Calibration.thresholds_left cal) (Calibration.thresholds_right cal ++ [t]).

Section SessionRuns.
Context {E : External}.

(** Feeding a session a sequence of frames. The caller may catch an
    exception that escapes [refresh] and go on with the next frame: the
    session object is then the one the failed call left behind. *)
Fixpoint run (self : GazeTracking.t) (frames : list GazeTracking.observation)
    : GazeTracking.t :=
  match frames with
  | [] => self
  | obs :: rest => run (fst (GazeTracking.refresh self obs)) rest
  end.

(** Sessions reached from a new one by [refresh] calls, whatever their
    outcome. *)
Inductive reachable : GazeTracking.t -> Prop :=
| reachable_init : reachable GazeTracking.init
| reachable_refresh (self : GazeTracking.t) (obs : GazeTracking.observation) :
    reachable self -> reachable (fst (GazeTracking.refresh self obs)).

(** Sessions reached by [refresh] calls that all returned. *)
Inductive reachable_normally : GazeTracking.t -> Prop :=
| normally_init : reachable_normally GazeTracking.init
| normally_refresh (self : GazeTracking.t) (obs : GazeTracking.observation) :
    reachable_normally self ->
    snd (GazeTracking.refresh self obs) = Ok tt ->
    reachable_normally (fst (GazeTracking.refresh self obs)).

Definition samples_capped (cal : Calibration.t) : Prop :=
  Calibration.nb_frames cal = 20%nat
  /\ length (Calibration.thresholds_left cal)
     = length (Calibration.thresholds_right cal)
  /\ (length (Calibration.thresholds_left cal) <= 20)%nat.

Definition right_bounded (cal : Calibration.t) : Prop :=
  Calibration.nb_frames cal = 20%nat
  /\ (length (Calibration.thresholds_right cal)
      <= length (Calibration.thresholds_left cal))%nat
  /\ (length (Calibration.thresholds_right cal) <= 20)%nat.

End SessionRuns.

(** A frame in which the trim of [iris_size] leaves nothing. *)
Definition small_crop (a : ndarray) : Prop :=
  (height a <= 10)%nat \/ (width a <= 10)%nat.

(** An eye build that fails on its crop: OpenCV rejects an empty crop, and
    the threshold search divides by zero on a small one. *)
Definition fails_with (cal : Calibration.t) (crop : ndarray) (e : exn) : Prop :=
  (is_empty crop = true /\ e = Cv2Error)
  \/ (is_empty crop = false /\ Calibration.is_complete cal = false
      /\ small_crop crop /\ e = ZeroDivisionError).

Section CropsAndRuns.
Context {E : External}.

(** An eye build that succeeds on its crop and takes the calibration [cal]
    to [cal']. *)
Definition builds (cal : Calibration.t) (side : Z) (crop : ndarray)
    (cal' : Calibration.t) : Prop :=
  is_empty crop = false
  /\ if Calibration.is_complete cal then cal' = cal
     else ~ small_crop crop
          /\ exists t, Calibration.find_best_threshold crop = Ok t
                       /\ cal' = add_sample cal side t.

(** What [image_processing] returns on a frame that is not empty. *)
Definition binarised (frame : ndarray) (threshold : Z) : ndarray :=
  cv2_threshold (erode (bilateralFilter frame)) threshold.

(** The eye frame [_isolate] assigns to [self.frame]. *)
Definition eye_crop (frame : ndarray) (lm : Eye.landmarks) (points : list nat)
    : ndarray :=
  fst (fst (fst (Eye._isolate frame lm points))).


(** Every [refresh] of a run returns. *)
Fixpoint all_return (self : GazeTracking.t)
    (frames : list GazeTracking.observation) : Prop :=
  match frames with
  | [] => True
  | obs :: rest =>
      snd (GazeTracking.refresh self obs) = Ok tt
      /\ all_return (fst (GazeTracking.refresh self obs)) rest
  end.

End CropsAndRuns.

(** A pupil coordinate inside the eye aperture, the crop without its two
    margins, whose length along the axis is [c * 2 - 10]. *)
Definition within_aperture (coord : option Z) (c : Q) : Prop :=
  exists v, coord = Some v
            /\ (0 <= inject_Z v)%Q /\ (inject_Z v <= c * 2 - 10)%Q
            /\ (0 < c * 2 - 10)%Q.

(** ** Concrete collaborators and inputs used to run the code

    On a uniformly white frame the bilateral filter, the erosion and the
    polygon masking all return the frame they are given, and the binarised
    frame has no second contour. [white_double] is that behaviour. *)

Definition isqrt_hypot (dx dy : Z) : Q := inject_Z (Z.sqrt (dx * dx + dy * dy)).

#[refine] Definition white_double : External := {|
  bilateralFilter := fun a => a;
  erode := fun a => a;
  findContours := fun _ => [];
  contourArea := fun _ => 0%Q;
  moments := fun _ => mk_moments 0 0 0;
  mask_region := fun a _ => a;
  hypot := isqrt_hypot
|}.
Proof.
  - reflexivity.
  - reflexivity.
  - reflexivity.
  - reflexivity.
  - intros dx dy. unfold isqrt_hypot, Qeq. simpl. rewrite Z.mul_1_r. split.
    + intros H0.
      assert (Hsq : dx * dx + dy * dy = 0).
      { destruct (Z.eq_dec (dx * dx + dy * dy) 0) as [Hz | Hnz]; [exact Hz |].
        assert (0 < Z.sqrt (dx * dx + dy * dy)) by (apply Z.sqrt_pos; nia).
        lia. }
      split; nia.
    + intros [-> ->]. reflexivity.
Defined.

Definition white (h w : nat) : ndarray :=
  {| height := h; width := w; px := fun _ _ => 255 |}.

(** ** Concrete frames, faces and sessions *)

(** Landmarks of a face, given the six points of each eye; the package reads
    no other point. *)
Definition eye_landmarks (left right : list point) : Eye.landmarks :=
  fun i =>
    if ((36 <=? i) && (i <=? 41))%nat then nth (i - 36) left (0, 0)
    else if ((42 <=? i) && (i <=? 47))%nat then nth (i - 42) right (0, 0)
    else (0, 0).

Definition open_left : list point :=
  [(10, 12); (12, 10); (16, 10); (18, 12); (16, 14); (12, 14)].
Definition open_right : list point :=
  [(30, 12); (32, 10); (36, 10); (38, 12); (36, 14); (32, 14)].
(** A left eye caught in a blink: the lids are within a pixel of each other
    and the two lid midpoints, truncated to integers, coincide at (14, 11). *)
Definition closed_left : list point :=
  [(10, 12); (12, 11); (16, 12); (18, 12); (16, 11); (12, 12)].
(** A left eye whose outer corner is 3 pixels from the left edge. *)
Definition edge_left : list point :=
  [(3, 12); (5, 10); (9, 10); (11, 12); (9, 14); (5, 14)].
(** The six points of the right eye on one line: a crop 10 pixels high. *)
Definition flat_right : list point :=
  [(30, 12); (32, 12); (36, 12); (38, 12); (36, 12); (32, 12)].

Definition open_face : GazeTracking.observation :=
  {| GazeTracking.gray := white 40 60;
     GazeTracking.faces := [eye_landmarks open_left open_right] |}.

Definition flat_face : GazeTracking.observation :=
  {| GazeTracking.gray := white 40 60;
     GazeTracking.faces := [eye_landmarks open_left flat_right] |}.

(** A face whose left eye is 3 pixels from the left edge of the image: the
    crop of that eye is empty. *)
Definition edge_face : GazeTracking.observation :=
  {| GazeTracking.gray := white 40 60;
     GazeTracking.faces := [eye_landmarks edge_left open_right] |}.

Definition calibrated : Calibration.t :=
  Calibration.mk 20 (repeat 50 20) (repeat 50 20).

(** An eye whose crop is [w] by [h] pixels at [origin], with its pupil
    detected at [(x, y)] in the crop. *)
Definition located_eye (origin : Z * Z) (h w : nat) (x y : Z)
    (blinking : option Q) : Eye.t :=
  Eye.mk (white h w) origin
    ((inject_Z (Z.of_nat w) / 2)%Q, (inject_Z (Z.of_nat h) / 2)%Q)
    (Pupil.mk (white h w) 50 (Some x) (Some y)) [] blinking.

(** Both pupils exactly at the centre of their eye. *)
Definition centred : GazeTracking.t :=
  GazeTracking.mk
    (Some (located_eye (100, 200) 110 210 105 55 (Some (3 # 1))))
    (Some (located_eye (400, 200) 110 210 105 55 (Some (3 # 1))))
    calibrated.

Definition closed_face : GazeTracking.observation :=
  {| GazeTracking.gray := white 40 60;
     GazeTracking.faces := [eye_landmarks closed_left open_right] |}.

(** Contour area and moments of a polygon by Green's formula, as OpenCV
    computes them for a contour; the sign is that of a positively oriented
    contour. *)
Fixpoint green_sum (weight : point -> point -> Z) (first prev : point)
    (rest : list point) : Z :=
  match rest with
  | [] => weight prev first
  | p :: rest' => weight prev p + green_sum weight first p rest'
  end.

Definition cross (p q : point) : Z := fst p * snd q - fst q * snd p.

Definition polygon_sum (weight : point -> point -> Z) (c : contour) : Z :=
  match c with
  | [] => 0
  | p :: rest => green_sum weight p p rest
  end.

Definition polygon_moments (c : contour) : Moments :=
  let a00 := polygon_sum cross c in
  let a10 := polygon_sum (fun p q => cross p q * (fst p + fst q)) c in
  let a01 := polygon_sum (fun p q => cross p q * (snd p + snd q)) c in
  let s := if a00 <? 0 then -1 else 1 in
  {| m00 := (inject_Z (s * a00) / 2)%Q;
     m10 := (inject_Z (s * a10) / 6)%Q;
     m01 := (inject_Z (s * a01) / 6)%Q |}.

(** Collaborators for an eye crop in which the contour finder reports the
    border of the crop and, inside it, a square iris blob centred at
    (9, 5). *)
Definition crop_border : contour := [(0, 0); (17, 0); (17, 10); (0, 10)].
Definition iris_blob : contour := [(7, 3); (11, 3); (11, 7); (7, 7)].

#[refine] Definition blob_double : External := {|
  bilateralFilter := bilateralFilter (External := white_double);
  erode := erode (External := white_double);
  findContours := fun _ => [crop_border; iris_blob];
  contourArea := fun c => m00 (polygon_moments c);
  moments := polygon_moments;
  mask_region := mask_region (External := white_double);
  hypot := isqrt_hypot;
  bilateralFilter_shape := bilateralFilter_shape (External := white_double);
  erode_shape := erode_shape (External := white_double);
  mask_region_shape := mask_region_shape (External := white_double);
  hypot_zero := hypot_zero (External := white_double)
|}.
Proof.
  intros c. symmetry. apply Qabs_pos.
  unfold polygon_moments. cbv zeta. cbn [m00].
  apply Qle_shift_div_l; [reflexivity |].
  rewrite Qmult_0_l. change 0%Q with (inject_Z 0). rewrite <- Zle_Qle.
  destruct (Z.ltb_spec (polygon_sum cross c) 0); lia.
Defined.

(** The session after one frame showing [closed_face], with the iris found
    in both crops. *)
Definition half_closed : GazeTracking.t :=
  fst (GazeTracking.refresh (E := blob_double) GazeTracking.init closed_face).

(** A frame whose columns darken from right to left. *)
Definition gradient : ndarray :=
  {| height := 14; width := 30; px := fun _ j => 10 * Z.of_nat j |}.

(** A 25 by 25 frame whose 225 trimmed pixels are, row by row, 55 black
    ones, then 106 of value 60, then 64 white ones. *)
Definition tied : ndarray :=
  {| height := 25; width := 25;
     px := fun i j =>
       let k := ((i - 5) * 15 + (j - 5))%nat in
       if (k <? 55)%nat then 0 else if (k <? 161)%nat then 60 else 255 |}.

(** * Properties *)

(** ** Builtins *)

Lemma Qeq_bool_inject_Z_0 (n : Z) : Qeq_bool (inject_Z n) 0 = (n =? 0).
Proof.
  unfold Qeq_bool, inject_Z. simpl. rewrite Z.mul_1_r. reflexivity.
Qed.

Lemma truediv_ints (a n : Z) :
  truediv (inject_Z a) (inject_Z n) =
  if n =? 0 then Raise ZeroDivisionError else Ok (inject_Z a / inject_Z n)%Q.
Proof.
  unfold truediv. rewrite Qeq_bool_inject_Z_0. reflexivity.
Qed.

Lemma truediv_raises_only_zero_division (a b : Q) (e : exn) :
  truediv a b = Raise e -> e = ZeroDivisionError.
Proof.
  unfold truediv. destruct (Qeq_bool b 0); congruence.
Qed.

(** Truncation of a quotient of integers with a positive divisor. *)
Lemma py_int_quotient (a n : Z) :
  0 < n -> py_int (inject_Z a / inject_Z n) = Z.quot a n.
Proof.
  intros Hn. destruct n as [| p | p]; try lia.
  unfold py_int, Qdiv, Qinv, Qmult, inject_Z. simpl.
  rewrite Z.mul_1_r. reflexivity.
Qed.

Lemma slice_bounds_trim (n : nat) :
  slice_bounds n 5 (-5) = (Nat.min 5 n, (n - 10)%nat).
Proof.
  unfold slice_bounds, slice_index.
  change (5 <? 0) with false. change (-5 <? 0) with true. cbv iota.
  f_equal; lia.
Qed.

Lemma py_range_candidates :
  py_range 5 100 5 =
  [5; 10; 15; 20; 25; 30; 35; 40; 45; 50; 55; 60; 65; 70; 75; 80; 85; 90; 95].
Proof. reflexivity. Qed.

Lemma py_index_0 {A : Type} (l : list A) :
  py_index l 0 = match l with [] => Raise IndexError | v :: _ => Ok v end.
Proof. destruct l; reflexivity. Qed.

Lemma sum_upto_le (n : nat) (f g : nat -> Z) :
  (forall i, (i < n)%nat -> f i <= g i) -> sum_upto n f <= sum_upto n g.
Proof.
  induction n as [| n IH]; intros Hfg; simpl.
  - lia.
  - assert (sum_upto n f <= sum_upto n g) by (apply IH; intros; apply Hfg; lia).
    assert (f n <= g n) by (apply Hfg; lia).
    lia.
Qed.

Lemma sum_upto_bounds (n : nat) (f : nat -> Z) (b : Z) :
  (forall i, (i < n)%nat -> 0 <= f i <= b) ->
  0 <= sum_upto n f <= Z.of_nat n * b.
Proof.
  induction n as [| n IH]; intros Hf; simpl sum_upto.
  - lia.
  - assert (0 <= sum_upto n f <= Z.of_nat n * b) by (apply IH; intros; apply Hf; lia).
    assert (0 <= f n <= b) by (apply Hf; lia).
    nia.
Qed.

(** ** Images *)

(** The region [iris_size] keeps: the frame without its 5-pixel border. *)
Lemma trim_shape (a : ndarray) :
  shape (slice2 a 5 (-5) 5 (-5)) = ((height a - 10)%nat, (width a - 10)%nat).
Proof.
  unfold slice2. rewrite !slice_bounds_trim. reflexivity.
Qed.

Lemma trim_height (a : ndarray) :
  height (slice2 a 5 (-5) 5 (-5)) = (height a - 10)%nat.
Proof. unfold slice2. rewrite !slice_bounds_trim. reflexivity. Qed.

Lemma trim_width (a : ndarray) :
  width (slice2 a 5 (-5) 5 (-5)) = (width a - 10)%nat.
Proof. unfold slice2. rewrite !slice_bounds_trim. reflexivity. Qed.

Lemma trim_px (a : ndarray) (i j : nat) :
  px (slice2 a 5 (-5) 5 (-5)) i j
  = px a (i + Nat.min 5 (height a))%nat (j + Nat.min 5 (width a))%nat.
Proof.
  unfold slice2. rewrite !slice_bounds_trim. reflexivity.
Qed.

Lemma countNonZero_bounds (a : ndarray) :
  0 <= countNonZero a <= Z.of_nat (height a) * Z.of_nat (width a).
Proof.
  unfold countNonZero. apply sum_upto_bounds. intros i _.
  pose proof (sum_upto_bounds (width a)
    (fun j => if px a i j =? 0 then 0 else 1) 1) as Hrow.
  rewrite Z.mul_1_r in Hrow. apply Hrow.
  intros j _. destruct (px a i j =? 0); lia.
Qed.

(** Raising the threshold can only turn white pixels black. *)
Lemma countNonZero_threshold_antitone (a : ndarray) (t1 t2 : Z) :
  t1 <= t2 ->
  countNonZero (slice2 (cv2_threshold a t2) 5 (-5) 5 (-5))
  <= countNonZero (slice2 (cv2_threshold a t1) 5 (-5) 5 (-5)).
Proof.
  intros Ht. unfold countNonZero.
  rewrite !trim_height, !trim_width. simpl height. simpl width.
  apply sum_upto_le. intros i _. apply sum_upto_le. intros j _.
  rewrite !trim_px. unfold cv2_threshold. cbn [px height width].
  generalize (px a (i + Nat.min 5 (height a))%nat (j + Nat.min 5 (width a))%nat).
  intros v. rewrite !Z.gtb_ltb.
  destruct (Z.ltb_spec t2 v); destruct (Z.ltb_spec t1 v); simpl; lia.
Qed.

(** ** calibration.py: [iris_size] *)

Lemma iris_size_eq (a : ndarray) :
  Calibration.iris_size a =
  if trimmed_pixels a =? 0 then Raise ZeroDivisionError
  else Ok (inject_Z (trimmed_pixels a - countNonZero (slice2 a 5 (-5) 5 (-5)))
           / inject_Z (trimmed_pixels a))%Q.
Proof.
  unfold Calibration.iris_size. cbv zeta. rewrite trim_shape.
  rewrite truediv_ints. reflexivity.
Qed.

Lemma trimmed_pixels_zero_iff (a : ndarray) :
  trimmed_pixels a = 0 <-> (height a <= 10)%nat \/ (width a <= 10)%nat.
Proof.
  unfold trimmed_pixels. split.
  - intros H. apply Z.mul_eq_0 in H. lia.
  - intros [H | H].
    + replace (height a - 10)%nat with 0%nat by lia. reflexivity.
    + replace (width a - 10)%nat with 0%nat by lia. lia.
Qed.

Lemma Qdiv_ints_le (a b n : Z) :
  0 < n -> a <= b -> (inject_Z a / inject_Z n <= inject_Z b / inject_Z n)%Q.
Proof.
  intros Hn Hab. unfold Qdiv.
  apply Qmult_le_compat_r.
  - rewrite <- Zle_Qle. exact Hab.
  - apply Qinv_le_0_compat. change 0%Q with (inject_Z 0).
    rewrite <- Zle_Qle. lia.
Qed.

Section PupilAndCalibration.
Context {E : External}.

Lemma is_empty_false_iff (a : ndarray) :
  is_empty a = false <-> (0 < height a)%nat /\ (0 < width a)%nat.
Proof.
  unfold is_empty. rewrite orb_false_iff, !Nat.eqb_neq. lia.
Qed.

Lemma is_empty_shape (a b : ndarray) : shape a = shape b -> is_empty a = is_empty b.
Proof.
  unfold shape, is_empty. intros H.
  assert (Hh : height a = height b) by congruence.
  assert (Hw : width a = width b) by congruence.
  rewrite Hh, Hw. reflexivity.
Qed.

Lemma small_not_empty_trimmed (a : ndarray) :
  is_empty a = true -> trimmed_pixels a = 0.
Proof.
  unfold is_empty. rewrite orb_true_iff, !Nat.eqb_eq. intros H.
  apply trimmed_pixels_zero_iff. lia.
Qed.

Lemma image_processing_eq (frame : ndarray) (t : Z) :
  Pupil.image_processing frame t
  = if is_empty frame then Raise Cv2Error else Ok (binarised frame t).
Proof.
  unfold Pupil.image_processing, Pupil.cv2_bilateralFilter, binarised.
  destruct (is_empty frame); reflexivity.
Qed.

Lemma binarised_shape (frame : ndarray) (t : Z) :
  is_empty frame = false -> shape (binarised frame t) = shape frame.
Proof.
  intros Hne. unfold binarised.
  transitivity (shape (erode (bilateralFilter frame))); [reflexivity |].
  pose proof (bilateralFilter_shape frame Hne) as Hb.
  rewrite erode_shape; [exact Hb |].
  rewrite (is_empty_shape _ _ Hb). exact Hne.
Qed.

Lemma binarised_trimmed_pixels (frame : ndarray) (t : Z) :
  is_empty frame = false ->
  trimmed_pixels (binarised frame t) = trimmed_pixels frame.
Proof.
  intros Hne. pose proof (binarised_shape frame t Hne) as Hs.
  unfold shape in Hs.
  assert (Hh : height (binarised frame t) = height frame) by congruence.
  assert (Hw : width (binarised frame t) = width frame) by congruence.
  unfold trimmed_pixels. rewrite Hh, Hw. reflexivity.
Qed.

Lemma trimmed_pixels_nonneg (a : ndarray) : 0 <= trimmed_pixels a.
Proof. unfold trimmed_pixels. apply Z.mul_nonneg_nonneg; lia. Qed.

(** One trial, case by case. *)
Lemma trial_eq (frame : ndarray) (t : Z) :
  Calibration.trial frame t =
  if is_empty frame then Raise Cv2Error
  else if trimmed_pixels frame =? 0 then Raise ZeroDivisionError
  else Ok (inject_Z (trimmed_pixels frame
                     - countNonZero (slice2 (binarised frame t) 5 (-5) 5 (-5)))
           / inject_Z (trimmed_pixels frame))%Q.
Proof.
  unfold Calibration.trial. rewrite image_processing_eq.
  destruct (is_empty frame) eqn:Hne; [reflexivity |].
  cbn [bind]. rewrite iris_size_eq, binarised_trimmed_pixels by exact Hne.
  reflexivity.
Qed.

(** C7. For a fixed eye image the occupancy fraction
    [iris_size (image_processing frame t)] is non-decreasing in the
    binarisation threshold [t]: whenever [t1 <= t2], both trials return and
    the fraction at [t1] is at most the fraction at [t2]; the only other
    outcome is that both raise the same exception, on a frame whose trimmed
    region is empty ([cv2.error] when the frame itself is empty,
    [ZeroDivisionError] otherwise). *)
Theorem iris_occupancy_monotone (frame : ndarray) (t1 t2 : Z) :
  t1 <= t2 ->
  match Calibration.trial frame t1, Calibration.trial frame t2 with
  | Ok s1, Ok s2 => (s1 <= s2)%Q /\ 0 < trimmed_pixels frame
  | Raise e1, Raise e2 =>
      e1 = e2 /\ trimmed_pixels frame = 0
      /\ e1 = (if is_empty frame then Cv2Error else ZeroDivisionError)
  | _, _ => False
  end.
Proof.
  intros Ht. rewrite !trial_eq.
  pose proof (trimmed_pixels_nonneg frame) as Hn.
  destruct (is_empty frame) eqn:Hne.
  - repeat split. apply small_not_empty_trimmed. exact Hne.
  - destruct (Z.eqb_spec (trimmed_pixels frame) 0) as [Hz | Hnz].
    + auto.
    + split; [| lia]. apply Qdiv_ints_le; [lia |].
      unfold binarised.
      pose proof (countNonZero_threshold_antitone
                    (erode (bilateralFilter frame)) t1 t2 Ht).
      lia.
Qed.

Lemma trial_small_frame (frame : ndarray) (t : Z) :
  is_empty frame = false ->
  (height frame <= 10)%nat \/ (width frame <= 10)%nat ->
  Calibration.trial frame t = Raise ZeroDivisionError.
Proof.
  intros Hne Hsmall. rewrite trial_eq, Hne.
  apply trimmed_pixels_zero_iff in Hsmall. rewrite Hsmall. reflexivity.
Qed.

Lemma trial_empty_frame (frame : ndarray) (t : Z) :
  is_empty frame = true -> Calibration.trial frame t = Raise Cv2Error.
Proof. intros Hempty. rewrite trial_eq, Hempty. reflexivity. Qed.

Lemma find_best_threshold_small_frame (frame : ndarray) :
  is_empty frame = false ->
  (height frame <= 10)%nat \/ (width frame <= 10)%nat ->
  Calibration.find_best_threshold frame = Raise ZeroDivisionError.
Proof.
  intros Hne Hsmall. unfold Calibration.find_best_threshold.
  rewrite py_range_candidates. cbn [Calibration.trials_loop].
  rewrite trial_small_frame by assumption. reflexivity.
Qed.

Lemma find_best_threshold_empty_frame (frame : ndarray) :
  is_empty frame = true ->
  Calibration.find_best_threshold frame = Raise Cv2Error.
Proof.
  intros Hempty. unfold Calibration.find_best_threshold.
  rewrite py_range_candidates. cbn [Calibration.trials_loop].
  rewrite trial_empty_frame by assumption. reflexivity.
Qed.

(** C10, as the code has it. On an eye frame whose height or width is at
    most 10 pixels, [find_best_threshold] and [evaluate] raise instead of
    returning, and [evaluate] leaves the calibration as it was. When the
    frame is not empty, the region left by the 5-pixel trim of [iris_size]
    has zero pixels and the division raises [ZeroDivisionError] for every
    threshold. When the frame is empty the division is never reached:
    [cv2.bilateralFilter] raises [cv2.error] first. *)
Theorem small_frame_division_by_zero (frame : ndarray) :
  (height frame <= 10)%nat \/ (width frame <= 10)%nat ->
  (is_empty frame = false ->
   (forall t,
      exists iris,
        Pupil.image_processing frame t = Ok iris
        /\ (let trimmed := slice2 iris 5 (-5) 5 (-5) in
            Z.of_nat (height trimmed) * Z.of_nat (width trimmed) = 0)
        /\ Calibration.iris_size iris = Raise ZeroDivisionError)
   /\ Calibration.find_best_threshold frame = Raise ZeroDivisionError
   /\ (forall self side,
         Calibration.evaluate self frame side = (self, Raise ZeroDivisionError)))
  /\ (is_empty frame = true ->
      (forall t, Pupil.image_processing frame t = Raise Cv2Error)
      /\ Calibration.find_best_threshold frame = Raise Cv2Error
      /\ (forall self side,
            Calibration.evaluate self frame side = (self, Raise Cv2Error))).
Proof.
  intros Hsmall. split; intros Hne.
  - split; [| split].
    + intros t. exists (binarised frame t).
      rewrite image_processing_eq, Hne. split; [reflexivity |].
      assert (Hzero : trimmed_pixels (binarised frame t) = 0).
      { rewrite binarised_trimmed_pixels by exact Hne.
        apply trimmed_pixels_zero_iff. exact Hsmall. }
      split.
      * cbv zeta. rewrite trim_height, trim_width. exact Hzero.
      * rewrite iris_size_eq, Hzero. reflexivity.
    + apply find_best_threshold_small_frame; assumption.
    + intros self side. unfold Calibration.evaluate.
      rewrite find_best_threshold_small_frame by assumption. reflexivity.
  - split; [| split].
    + intros t. rewrite image_processing_eq, Hne. reflexivity.
    + apply find_best_threshold_empty_frame. exact Hne.
    + intros self side. unfold Calibration.evaluate.
      rewrite find_best_threshold_empty_frame by exact Hne. reflexivity.
Qed.

End PupilAndCalibration.

(** ** [min] with a key and [sorted] with a key *)

Lemma Qlt_bool_iff (a b : Q) : Qlt_bool a b = true <-> (a < b)%Q.
Proof.
  unfold Qlt_bool. rewrite negb_true_iff. split.
  - intros H. apply Qnot_le_lt. intros Hle.
    apply Qle_bool_iff in Hle. congruence.
  - intros H. destruct (Qle_bool b a) eqn:Hb; [| reflexivity].
    apply Qle_bool_iff in Hb. exfalso. exact (Qlt_not_le _ _ H Hb).
Qed.

Lemma Qlt_bool_false_iff (a b : Q) : Qlt_bool a b = false <-> (b <= a)%Q.
Proof.
  unfold Qlt_bool. rewrite negb_false_iff. apply Qle_bool_iff.
Qed.

(** [min_from] returns the first element of [best :: l] with the least key:
    everything before it has a strictly greater key, everything after it a
    key at least as great. *)
Lemma min_from_first_minimum {A : Type} (key : A -> Q) (l : list A) :
  forall best, exists l1 l2,
    best :: l = l1 ++ min_from key best l :: l2
    /\ Forall (fun v => (key (min_from key best l) < key v)%Q) l1
    /\ Forall (fun v => (key (min_from key best l) <= key v)%Q) l2.
Proof.
  induction l as [| v l IH]; intros best.
  - exists [], []. simpl. auto.
  - simpl. destruct (Qlt_bool (key v) (key best)) eqn:Hlt.
    + apply Qlt_bool_iff in Hlt.
      destruct (IH v) as (l1 & l2 & Heq & H1 & H2).
      exists (best :: l1), l2. split; [| split].
      * simpl. f_equal. exact Heq.
      * constructor; [| exact H1].
        destruct l1 as [| w l1].
        -- simpl in Heq. injection Heq as Hv _. rewrite <- Hv. exact Hlt.
        -- simpl in Heq. injection Heq as Hv _. subst w.
           inversion H1; subst. eapply Qlt_trans; eassumption.
      * exact H2.
    + apply Qlt_bool_false_iff in Hlt.
      destruct (IH best) as (l1 & l2 & Heq & H1 & H2).
      destruct l1 as [| w l1].
      * simpl in Heq. injection Heq as Hb Hl.
        exists [], (v :: l). split; [| split].
        -- simpl. f_equal. exact Hb.
        -- constructor.
        -- rewrite <- Hb. constructor; [exact Hlt |].
           rewrite Hl. rewrite Hb. exact H2.
      * simpl in Heq. injection Heq as Hw Hl. subst w.
        exists (best :: v :: l1), l2. split; [| split].
        -- simpl. f_equal. f_equal. exact Hl.
        -- inversion H1; subst. constructor; [assumption |].
           constructor; [| assumption].
           eapply Qlt_le_trans; eassumption.
        -- exact H2.
Qed.

Lemma sorted_after_split (c1 c2 : list Z) (t : Z) :
  StronglySorted Z.lt (c1 ++ t :: c2) -> Forall (fun c => t < c) c2.
Proof.
  induction c1 as [| c c1 IH]; simpl; intros Hs; inversion Hs; subst; auto.
Qed.

Lemma candidates_sorted : StronglySorted Z.lt (py_range 5 100 5).
Proof.
  rewrite py_range_candidates.
  repeat (constructor; [| repeat (constructor; [lia |]); constructor]).
  constructor.
Qed.

Section FindBestThreshold.
Context {E : External}.

Lemma trials_loop_ok (frame : ndarray) (occ : Z -> Q) (candidates : list Z) :
  forall trials,
    (forall c, In c candidates -> Calibration.trial frame c = Ok (occ c)) ->
    Calibration.trials_loop frame candidates trials
    = Ok (trials ++ map (fun c => (c, occ c)) candidates).
Proof.
  induction candidates as [| c rest IH]; intros trials Hocc; simpl.
  - rewrite app_nil_r. reflexivity.
  - rewrite (Hocc c) by (left; reflexivity). simpl.
    rewrite IH by (intros; apply Hocc; right; assumption).
    rewrite <- app_assoc. reflexivity.
Qed.

Lemma large_frame_not_empty (frame : ndarray) :
  (10 < height frame)%nat -> (10 < width frame)%nat -> is_empty frame = false.
Proof. intros Hh Hw. apply is_empty_false_iff. lia. Qed.

(** The occupancy measured on a frame whose trimmed region is not empty. *)
Lemma trial_large_frame (frame : ndarray) (t : Z) :
  (10 < height frame)%nat -> (10 < width frame)%nat ->
  exists s, Calibration.trial frame t = Ok s.
Proof.
  intros Hh Hw. rewrite trial_eq, (large_frame_not_empty frame Hh Hw).
  destruct (Z.eqb_spec (trimmed_pixels frame) 0) as [Hz | Hnz].
  - apply trimmed_pixels_zero_iff in Hz. lia.
  - eexists. reflexivity.
Qed.

(** What [find_best_threshold] raises, and when. *)
Lemma find_best_threshold_raises (frame : ndarray) (e : exn) :
  Calibration.find_best_threshold frame = Raise e ->
  small_crop frame
  /\ e = (if is_empty frame then Cv2Error else ZeroDivisionError).
Proof.
  intros Hraise.
  destruct (is_empty frame) eqn:Hne.
  { rewrite find_best_threshold_empty_frame in Hraise by exact Hne.
    split; [| congruence].
    unfold small_crop. unfold is_empty in Hne.
    rewrite orb_true_iff, !Nat.eqb_eq in Hne. lia. }
  destruct (Nat.le_gt_cases (height frame) 10) as [Hh | Hh].
  { rewrite find_best_threshold_small_frame in Hraise by auto.
    split; [left; exact Hh | congruence]. }
  destruct (Nat.le_gt_cases (width frame) 10) as [Hw | Hw].
  { rewrite find_best_threshold_small_frame in Hraise by auto.
    split; [right; exact Hw | congruence]. }
  exfalso. revert Hraise.
  set (occ := fun c =>
    match Calibration.trial frame c with
    | Ok s => s
    | Raise _ => 0%Q
    end).
  unfold Calibration.find_best_threshold.
  rewrite (trials_loop_ok frame occ).
  - rewrite py_range_candidates. cbn [app map py_min bind].
    intros H. discriminate H.
  - intros c _. destruct (trial_large_frame frame c Hh Hw) as [s Hs].
    unfold occ. rewrite Hs. reflexivity.
Qed.

(** C4, as the code has it. On an eye frame more than 10 pixels high and
    wide, [find_best_threshold] returns a threshold of 5, 10, ..., 95 whose
    occupancy fraction is closest to 0.48, the distance being the one the
    code computes in double precision, and every smaller candidate is
    strictly farther from 0.48: it is the smallest of the minimisers. *)
Theorem find_best_threshold_first_minimiser (frame : ndarray) :
  (10 < height frame)%nat -> (10 < width frame)%nat ->
  exists (best : Z) (occ : Z -> Q),
    Calibration.find_best_threshold frame = Ok best
    /\ In best [5; 10; 15; 20; 25; 30; 35; 40; 45; 50;
                55; 60; 65; 70; 75; 80; 85; 90; 95]
    /\ (forall c, In c (py_range 5 100 5) ->
          Calibration.trial frame c = Ok (occ c))
    /\ (forall c, In c (py_range 5 100 5) ->
          (Calibration.distance (occ best) <= Calibration.distance (occ c))%Q)
    /\ (forall c, In c (py_range 5 100 5) -> c < best ->
          (Calibration.distance (occ best) < Calibration.distance (occ c))%Q).
Proof.
  intros Hh Hw.
  set (occ := fun c =>
    match Calibration.trial frame c with
    | Ok s => s
    | Raise _ => 0%Q
    end).
  assert (Hocc : forall c, Calibration.trial frame c = Ok (occ c)).
  { intros c. destruct (trial_large_frame frame c Hh Hw) as [s Hs].
    unfold occ. rewrite Hs. reflexivity. }
  set (key := fun p : Z * Q => Calibration.distance (snd p)).
  set (item := fun c : Z => (c, occ c)).
  unfold Calibration.find_best_threshold.
  rewrite (trials_loop_ok frame occ) by (intros; apply Hocc).
  cbn [app bind].
  pose proof candidates_sorted as Hsorted.
  destruct (py_range 5 100 5) as [| c0 cs] eqn:Hrange;
    [rewrite py_range_candidates in Hrange; discriminate |].
  cbn [map py_min bind].
  destruct (min_from_first_minimum key (map item cs) (item c0))
    as (l1 & l2 & Hsplit & Hbefore & Hafter).
  fold key item.
  set (r := min_from key (item c0) (map item cs)) in *.
  change (item c0 :: map item cs) with (map item (c0 :: cs)) in Hsplit.
  apply map_eq_app in Hsplit.
  destruct Hsplit as (c1 & c2' & Hcs & Hl1 & Hrest).
  destruct c2' as [| best c2]; [discriminate |].
  simpl in Hrest. injection Hrest as Hr Hl2.
  exists best, occ. split; [| split; [| split; [| split]]].
  - change (c0, occ c0) with (item c0). fold r. rewrite <- Hr. reflexivity.
  - rewrite <- py_range_candidates, Hrange, Hcs.
    apply in_or_app. right. left. reflexivity.
  - intros c _. apply Hocc.
  - intros c Hc. rewrite Hcs in Hc. apply in_app_or in Hc.
    change (key (item best) <= key (item c))%Q. rewrite Hr.
    destruct Hc as [Hc | [Hc | Hc]].
    + apply Qlt_le_weak. rewrite Forall_forall in Hbefore.
      apply Hbefore. rewrite <- Hl1. apply in_map. exact Hc.
    + subst c. rewrite <- Hr. apply Qle_refl.
    + rewrite Forall_forall in Hafter.
      apply Hafter. rewrite <- Hl2. apply in_map. exact Hc.
  - intros c Hc Hlt. rewrite Hcs in Hc, Hsorted.
    apply sorted_after_split in Hsorted. rewrite Forall_forall in Hsorted.
    apply in_app_or in Hc.
    change (key (item best) < key (item c))%Q. rewrite Hr.
    destruct Hc as [Hc | [Hc | Hc]].
    + rewrite Forall_forall in Hbefore.
      apply Hbefore. rewrite <- Hl1. apply in_map. exact Hc.
    + lia.
    + specialize (Hsorted c Hc). lia.
Qed.

End FindBestThreshold.

(** ** calibration.py: [threshold] *)

Lemma mean_empty : Calibration.mean [] = Raise ZeroDivisionError.
Proof. reflexivity. Qed.

Lemma mean_nonempty (l : list Z) :
  l <> [] ->
  Calibration.mean l = Ok (Z.quot (py_sum l) (Z.of_nat (length l))).
Proof.
  intros Hl. unfold Calibration.mean. rewrite truediv_ints.
  assert (Hlen : 0 < Z.of_nat (length l)).
  { destruct l; [congruence | simpl length; lia]. }
  destruct (Z.eqb_spec (Z.of_nat (length l)) 0) as [Hz | _]; [lia |].
  cbn [bind]. rewrite py_int_quotient by exact Hlen. reflexivity.
Qed.

Lemma threshold_is_mean (self : Calibration.t) (side : Z) :
  side = 0 \/ side = 1 ->
  Calibration.threshold self side
  = (v <- Calibration.mean (if side =? 0 then Calibration.thresholds_left self
                            else Calibration.thresholds_right self) ;;
     Ok (Some v)).
Proof.
  intros Hside. unfold Calibration.threshold.
  destruct Hside as [-> | ->]; reflexivity.
Qed.

(** C5. For side 0 and side 1, [Calibration.threshold] returns the mean of
    that side's samples under truncating division whenever the side has a
    sample, and it raises [ZeroDivisionError] exactly when the side has
    none. *)
Theorem threshold_truncated_mean (self : Calibration.t) (side : Z) :
  side = 0 \/ side = 1 ->
  let samples := if side =? 0 then Calibration.thresholds_left self
                 else Calibration.thresholds_right self in
  (samples <> [] ->
     Calibration.threshold self side
     = Ok (Some (Z.quot (py_sum samples) (Z.of_nat (length samples)))))
  /\ (Calibration.threshold self side = Raise ZeroDivisionError
      <-> samples = []).
Proof.
  intros Hside samples.
  rewrite (threshold_is_mean self side Hside). fold samples. split.
  - intros Hne. rewrite mean_nonempty by exact Hne. reflexivity.
  - split.
    + intros Hraise. destruct samples as [| v l] eqn:Hs; [reflexivity |].
      rewrite mean_nonempty in Hraise by discriminate.
      discriminate Hraise.
    + intros ->. reflexivity.
Qed.

(** ** pupil.py: [detect_iris] *)

Lemma insert_by_perm {A : Type} (key : A -> Q) (v : A) (l : list A) :
  Permutation (insert_by key v l) (v :: l).
Proof.
  induction l as [| w l IH]; simpl.
  - apply Permutation_refl.
  - destruct (Qle_bool (key v) (key w)).
    + apply Permutation_refl.
    + eapply Permutation_trans; [apply perm_skip; exact IH | apply perm_swap].
Qed.

Lemma py_sorted_perm {A : Type} (key : A -> Q) (l : list A) :
  Permutation (py_sorted key l) l.
Proof.
  induction l as [| v l IH]; simpl.
  - apply Permutation_refl.
  - eapply Permutation_trans; [apply insert_by_perm | apply perm_skip; exact IH].
Qed.

Lemma insert_by_sorted {A : Type} (key : A -> Q) (v : A) (l : list A) :
  StronglySorted (key_le key) l -> StronglySorted (key_le key) (insert_by key v l).
Proof.
  induction l as [| w l IH]; intros Hs; simpl.
  - constructor; constructor.
  - inversion Hs as [| ? ? Hl Hw]; subst.
    destruct (Qle_bool (key v) (key w)) eqn:Hle.
    + apply Qle_bool_iff in Hle. constructor; [exact Hs |].
      constructor; [exact Hle |].
      rewrite Forall_forall in *. intros u Hu.
      unfold key_le in *. eapply Qle_trans; [exact Hle | apply Hw; exact Hu].
    + assert (Hwv : (key w <= key v)%Q).
      { apply Qlt_le_weak. apply Qnot_le_lt. intros Hc.
        apply Qle_bool_iff in Hc. congruence. }
      constructor; [apply IH; exact Hl |].
      rewrite Forall_forall in *. intros u Hu.
      apply (Permutation_in _ (insert_by_perm key v l)) in Hu.
      destruct Hu as [<- | Hu]; [exact Hwv | apply Hw; exact Hu].
Qed.

Lemma py_sorted_sorted {A : Type} (key : A -> Q) (l : list A) :
  StronglySorted (key_le key) (py_sorted key l).
Proof.
  induction l as [| v l IH]; simpl.
  - constructor.
  - apply insert_by_sorted. exact IH.
Qed.

Lemma py_index_minus_2_short {A : Type} (l : list A) :
  (length l < 2)%nat -> py_index l (-2) = Raise IndexError.
Proof.
  intros Hlen. unfold py_index. change (-2 <? 0) with true. cbv iota.
  destruct (Z.ltb_spec (-2 + Z.of_nat (length l)) 0); [reflexivity | lia].
Qed.

Lemma py_index_minus_2 {A : Type} (l : list A) :
  (2 <= length l)%nat ->
  exists c, nth_error l (length l - 2) = Some c /\ py_index l (-2) = Ok c.
Proof.
  intros Hlen. unfold py_index. change (-2 <? 0) with true. cbv iota.
  destruct (Z.ltb_spec (-2 + Z.of_nat (length l)) 0); [lia |].
  destruct (Z.leb_spec (Z.of_nat (length l)) (-2 + Z.of_nat (length l))); [lia |].
  cbn [orb].
  replace (Z.to_nat (-2 + Z.of_nat (length l))) with (length l - 2)%nat by lia.
  destruct (nth_error l (length l - 2)) as [c |] eqn:Hnth.
  - exists c. split; reflexivity.
  - apply nth_error_None in Hnth. lia.
Qed.

Section DetectIris.
Context {E : External}.

Lemma Qabs_zero_iff (q : Q) : (Qabs q == 0)%Q <-> (q == 0)%Q.
Proof.
  split.
  - intros Habs. destruct (Qlt_le_dec q 0) as [Hneg | Hpos].
    + rewrite Qabs_neg in Habs by (apply Qlt_le_weak; exact Hneg).
      rewrite <- (Qopp_involutive q), Habs. reflexivity.
    + rewrite Qabs_pos in Habs by exact Hpos. exact Habs.
  - intros ->. reflexivity.
Qed.

Lemma area_zero_iff_m00_zero (c : contour) :
  (contourArea c == 0)%Q <-> (m00 (moments c) == 0)%Q.
Proof. rewrite contourArea_m00. apply Qabs_zero_iff. Qed.

(** C6. On the binarised frame [image_processing] returns, [detect_iris]
    sorts the contours by area, ascending, and takes the one before last,
    the second largest. With fewer than two contours the pupil is
    undetected. Otherwise, for the selected contour [c], whose area is zero
    exactly when its zeroth moment [m00] is: when [m00] is zero the pupil is
    undetected, and when it is not, the coordinates are the moment centroid
    [m10 / m00], [m01 / m00], converted by [int]. These are all the cases, so
    the pupil is undetected exactly in the first two. (When OpenCV rejects
    the eye frame, [detect_iris] raises and there is no pupil.) *)
Theorem detect_iris_second_largest (eye_frame : ndarray) (threshold : Z) :
  match Pupil.image_processing eye_frame threshold with
  | Raise e => Pupil.detect_iris eye_frame threshold = Raise e
  | Ok iris =>
      let contours := findContours iris in
      let ordered := py_sorted contourArea contours in
      exists pupil,
        Pupil.detect_iris eye_frame threshold = Ok pupil
        /\ Permutation ordered contours
        /\ StronglySorted (key_le contourArea) ordered
        /\ ((length contours < 2)%nat ->
              Pupil.x pupil = None /\ Pupil.y pupil = None)
        /\ ((2 <= length contours)%nat ->
              exists c,
                nth_error ordered (length ordered - 2) = Some c
                /\ ((contourArea c == 0)%Q <-> (m00 (moments c) == 0)%Q)
                /\ ((m00 (moments c) == 0)%Q ->
                      Pupil.x pupil = None /\ Pupil.y pupil = None)
                /\ (~ (m00 (moments c) == 0)%Q ->
                      Pupil.x pupil
                      = Some (py_int (m10 (moments c) / m00 (moments c)))
                      /\ Pupil.y pupil
                         = Some (py_int (m01 (moments c) / m00 (moments c)))))
  end.
Proof.
  unfold Pupil.detect_iris.
  destruct (Pupil.image_processing eye_frame threshold) as [iris | e];
    cbn [bind]; [| reflexivity].
  cbv zeta.
  set (contours := findContours iris).
  set (ordered := py_sorted contourArea contours).
  assert (Hlen : length ordered = length contours).
  { apply Permutation_length. apply py_sorted_perm. }
  destruct (Nat.lt_ge_cases (length contours) 2) as [Hshort | Htwo].
  - rewrite py_index_minus_2_short by lia.
    eexists. split; [reflexivity |].
    split; [apply py_sorted_perm |]. split; [apply py_sorted_sorted |].
    split; [intros _; split; reflexivity | intros Hge; lia].
  - destruct (py_index_minus_2 ordered) as (c & Hnth & Hidx); [lia |].
    rewrite Hidx. unfold truediv.
    destruct (Qeq_bool (m00 (moments c)) 0) eqn:Hz.
    + eexists. split; [reflexivity |].
      split; [apply py_sorted_perm |]. split; [apply py_sorted_sorted |].
      split; [intros Hlt; lia |]. intros _.
      exists c. split; [exact Hnth |].
      split; [apply area_zero_iff_m00_zero |].
      apply Qeq_bool_iff in Hz. split.
      * intros _. split; reflexivity.
      * intros Hnz. contradiction.
    + eexists. split; [reflexivity |].
      split; [apply py_sorted_perm |]. split; [apply py_sorted_sorted |].
      split; [intros Hlt; lia |]. intros _.
      exists c. split; [exact Hnth |].
      split; [apply area_zero_iff_m00_zero |].
      split.
      * intros Hzero. apply Qeq_bool_iff in Hzero. congruence.
      * intros _. split; reflexivity.
Qed.

End DetectIris.

(** ** gaze_tracking.py: pupil coordinates *)

(** C8. Whenever both pupils are located, [pupil_left_coords] and
    [pupil_right_coords] return the eye's origin plus the pupil's coordinates
    in the eye frame, component by component. *)
Theorem pupil_coords_origin_plus_local (self : GazeTracking.t) :
  GazeTracking.pupils_located self = true ->
  exists el er xl yl xr yr,
    GazeTracking.eye_left self = Some el
    /\ GazeTracking.eye_right self = Some er
    /\ Pupil.x (Eye.pupil el) = Some xl /\ Pupil.y (Eye.pupil el) = Some yl
    /\ Pupil.x (Eye.pupil er) = Some xr /\ Pupil.y (Eye.pupil er) = Some yr
    /\ GazeTracking.pupil_left_coords self
       = Some (fst (Eye.origin el) + xl, snd (Eye.origin el) + yl)
    /\ GazeTracking.pupil_right_coords self
       = Some (fst (Eye.origin er) + xr, snd (Eye.origin er) + yr).
Proof.
  intros Hloc.
  unfold GazeTracking.pupil_left_coords, GazeTracking.pupil_right_coords.
  rewrite Hloc. unfold GazeTracking.pupils_located in Hloc.
  destruct (GazeTracking.eye_left self) as [el |]; [| discriminate].
  destruct (GazeTracking.eye_right self) as [er |];
    [| destruct el; discriminate].
  destruct (Pupil.x (Eye.pupil el)) as [xl |] eqn:Hxl; [| discriminate].
  destruct (Pupil.y (Eye.pupil el)) as [yl |] eqn:Hyl; [| discriminate].
  destruct (Pupil.x (Eye.pupil er)) as [xr |] eqn:Hxr; [| discriminate].
  destruct (Pupil.y (Eye.pupil er)) as [yr |] eqn:Hyr; [| discriminate].
  exists el, er, xl, yl, xr, yr. repeat split; assumption || reflexivity.
Qed.

(** ** eye.py: calibration while an eye is built *)

Section EyeCalibration.
Context {E : External}.

Lemma evaluate_outcome (cal : Calibration.t) (frame : ndarray) (side : Z) :
  side = 0 \/ side = 1 ->
  match Calibration.find_best_threshold frame with
  | Ok t => Calibration.evaluate cal frame side = (add_sample cal side t, Ok tt)
  | Raise e => Calibration.evaluate cal frame side = (cal, Raise e)
  end.
Proof.
  intros Hside. unfold Calibration.evaluate, add_sample.
  destruct (Calibration.find_best_threshold frame) as [t | e] eqn:Hbest.
  - destruct Hside as [-> | ->]; reflexivity.
  - reflexivity.
Qed.

Lemma threshold_after_add_sample (cal : Calibration.t) (side t : Z) :
  side = 0 \/ side = 1 ->
  exists v, Calibration.threshold (add_sample cal side t) side = Ok (Some v).
Proof.
  intros Hside. rewrite (threshold_is_mean _ side Hside).
  eexists. rewrite mean_nonempty; [reflexivity |].
  unfold add_sample.
  destruct Hside as [-> | ->]; simpl; intros Hnil;
    apply app_eq_nil in Hnil; destruct Hnil; discriminate.
Qed.

Lemma threshold_when_complete (cal : Calibration.t) (side : Z) :
  side = 0 \/ side = 1 ->
  (0 < Calibration.nb_frames cal)%nat ->
  Calibration.is_complete cal = true ->
  exists v, Calibration.threshold cal side = Ok (Some v).
Proof.
  intros Hside Hnb Hcomplete.
  unfold Calibration.is_complete in Hcomplete.
  apply andb_true_iff in Hcomplete. destruct Hcomplete as [Hl Hr].
  apply Nat.leb_le in Hl, Hr.
  rewrite (threshold_is_mean cal side Hside).
  eexists. rewrite mean_nonempty; [reflexivity |].
  destruct Hside as [-> | ->]; cbn [Z.eqb]; intros Hnil; rewrite Hnil in *;
    simpl in *; lia.
Qed.

Lemma detect_iris_empty (eye_frame : ndarray) (threshold : Z) :
  is_empty eye_frame = true ->
  Pupil.detect_iris eye_frame threshold = Raise Cv2Error.
Proof.
  intros Hempty. unfold Pupil.detect_iris.
  rewrite image_processing_eq, Hempty. reflexivity.
Qed.

Lemma detect_iris_returns (eye_frame : ndarray) (threshold : Z) :
  is_empty eye_frame = false ->
  exists pupil,
    Pupil.detect_iris eye_frame threshold = Ok pupil
    /\ Pupil.threshold pupil = threshold
    /\ Pupil.iris_frame pupil = binarised eye_frame threshold.
Proof.
  intros Hne. unfold Pupil.detect_iris.
  rewrite image_processing_eq, Hne. cbn [bind]. cbv zeta.
  destruct (py_index _ (-2)) as [c | e];
    [| eexists; repeat split; reflexivity].
  destruct (truediv (m10 (moments c)) (m00 (moments c)));
    [| eexists; repeat split; reflexivity].
  destruct (truediv (m01 (moments c)) (m00 (moments c)));
    eexists; repeat split; reflexivity.
Qed.

Lemma small_or_large (a : ndarray) :
  small_crop a \/ ((10 < height a)%nat /\ (10 < width a)%nat).
Proof.
  unfold small_crop.
  destruct (Nat.le_gt_cases (height a) 10) as [Hh | Hh]; [left; left; exact Hh |].
  destruct (Nat.le_gt_cases (width a) 10) as [Hw | Hw]; [left; right; exact Hw |].
  right. split; assumption.
Qed.

Lemma large_not_small (a : ndarray) :
  (10 < height a)%nat /\ (10 < width a)%nat -> ~ small_crop a.
Proof. unfold small_crop. lia. Qed.

Lemma find_best_threshold_large_frame (frame : ndarray) :
  (10 < height frame)%nat -> (10 < width frame)%nat ->
  exists t, Calibration.find_best_threshold frame = Ok t.
Proof.
  intros Hh Hw.
  destruct (Calibration.find_best_threshold frame) as [t | e] eqn:Hbest;
    [exists t; reflexivity |].
  apply find_best_threshold_raises in Hbest. destruct Hbest as [Hsmall _].
  exfalso. revert Hsmall. apply large_not_small. split; assumption.
Qed.

(** Everything building one eye does, for side 0 or 1 and a calibration
    with a positive target: the build fails and leaves the calibration as it
    was, or it succeeds, with the calibration one sample longer on that side
    exactly when it was not complete. *)
Lemma analyze_points_cases (frame : ndarray) (lm : Eye.landmarks)
    (points : list nat) (side : Z) (cal : Calibration.t) :
  side = 0 \/ side = 1 ->
  (0 < Calibration.nb_frames cal)%nat ->
  let crop := eye_crop frame lm points in
  (exists e,
     fails_with cal crop e
     /\ Eye.analyze_points frame lm points side cal = (cal, Raise e))
  \/ (exists eye cal' v,
        builds cal side crop cal'
        /\ Eye.analyze_points frame lm points side cal = (cal', Ok (Some eye))
        /\ Calibration.threshold cal' side = Ok (Some v)
        /\ Eye.frame eye = crop
        /\ Pupil.new crop v = Ok (Eye.pupil eye)
        /\ Eye.blinking eye = Eye._blinking_ratio lm points).
Proof.
  intros Hside Hnb. unfold eye_crop, Eye.analyze_points. cbv zeta.
  destruct (Eye._isolate frame lm points) as [[[crop origin] center] region].
  cbn [fst]. unfold fails_with, builds, Pupil.new.
  destruct (is_empty crop) eqn:Hempty.
  - left. exists Cv2Error. split; [left; split; reflexivity |].
    destruct (Calibration.is_complete cal) eqn:Hcomplete; cbn [negb].
    + destruct (threshold_when_complete cal side Hside Hnb Hcomplete) as [v Hv].
      cbn [bind]. rewrite Hv. cbn [bind].
      rewrite detect_iris_empty by exact Hempty. reflexivity.
    + pose proof (evaluate_outcome cal crop side Hside) as Hev.
      rewrite find_best_threshold_empty_frame in Hev by exact Hempty.
      rewrite Hev. reflexivity.
  - destruct (Calibration.is_complete cal) eqn:Hcomplete; cbn [negb].
    + right.
      destruct (threshold_when_complete cal side Hside Hnb Hcomplete) as [v Hv].
      destruct (detect_iris_returns crop v Hempty) as (pupil & Hpupil & _).
      cbn [bind]. rewrite Hv. cbn [bind]. rewrite Hpupil. cbn [bind].
      eexists. exists cal, v. repeat split; reflexivity || assumption.
    + pose proof (evaluate_outcome cal crop side Hside) as Hev.
      destruct (small_or_large crop) as [Hsmall | [Hh Hw]].
      * left. exists ZeroDivisionError.
        split; [right; repeat split; assumption || reflexivity |].
        rewrite find_best_threshold_small_frame in Hev by assumption.
        rewrite Hev. reflexivity.
      * right.
        destruct (find_best_threshold_large_frame crop Hh Hw) as [t Ht].
        rewrite Ht in Hev. rewrite Hev. cbn [bind].
        destruct (threshold_after_add_sample cal side t Hside) as [v Hv].
        destruct (detect_iris_returns crop v Hempty) as (pupil & Hpupil & _).
        rewrite Hv. cbn [bind]. rewrite Hpupil. cbn [bind].
        eexists. exists (add_sample cal side t), v.
        repeat split; try reflexivity; try assumption.
        -- apply large_not_small. split; assumption.
        -- exists t. split; [exact Ht | reflexivity].
Qed.

Lemma eye_new_cases (frame : ndarray) (lm : Eye.landmarks) (side : Z)
    (cal : Calibration.t) :
  side = 0 \/ side = 1 ->
  (0 < Calibration.nb_frames cal)%nat ->
  let crop := eye_crop frame lm
                (if side =? 0 then Eye.LEFT_EYE_POINTS else Eye.RIGHT_EYE_POINTS) in
  (exists e,
     fails_with cal crop e /\ Eye.new frame lm side cal = (cal, Raise e))
  \/ (exists eye cal' v,
        builds cal side crop cal'
        /\ Eye.new frame lm side cal = (cal', Ok (Some eye))
        /\ Calibration.threshold cal' side = Ok (Some v)
        /\ Eye.frame eye = crop
        /\ Pupil.new crop v = Ok (Eye.pupil eye)
        /\ Eye.blinking eye
           = Eye._blinking_ratio lm
               (if side =? 0 then Eye.LEFT_EYE_POINTS else Eye.RIGHT_EYE_POINTS)).
Proof.
  intros Hside Hnb. unfold Eye.new, Eye._analyze.
  destruct Hside as [-> | ->]; cbn [Z.eqb]; cbv zeta;
    apply analyze_points_cases; auto.
Qed.

(** A build changes nothing but the length of one list. *)
Lemma builds_nb_frames (cal cal' : Calibration.t) (side : Z) (crop : ndarray) :
  builds cal side crop cal' ->
  Calibration.nb_frames cal' = Calibration.nb_frames cal.
Proof.
  intros [_ Hcal]. destruct (Calibration.is_complete cal).
  - subst cal'. reflexivity.
  - destruct Hcal as (_ & t & _ & ->). unfold add_sample.
    destruct (side =? 0); reflexivity.
Qed.

Lemma refresh_no_face (self : GazeTracking.t) (obs : GazeTracking.observation) :
  GazeTracking.faces obs = [] ->
  GazeTracking.refresh self obs
  = (GazeTracking.mk None None (GazeTracking.calibration self), Ok tt).
Proof.
  intros Hfaces. unfold GazeTracking.refresh, GazeTracking._analyze. cbv zeta.
  rewrite Hfaces. reflexivity.
Qed.

(** The ways a [refresh] on a frame with a face can go: the left eye fails,
    the left eye is built and the right eye fails, or both are built. *)
Lemma refresh_cases (self : GazeTracking.t) (gray : ndarray)
    (lm : Eye.landmarks) (others : list Eye.landmarks) :
  (0 < Calibration.nb_frames (GazeTracking.calibration self))%nat ->
  let cal := GazeTracking.calibration self in
  let obs := GazeTracking.mk_observation gray (lm :: others) in
  let left_crop := eye_crop gray lm Eye.LEFT_EYE_POINTS in
  let right_crop := eye_crop gray lm Eye.RIGHT_EYE_POINTS in
  (exists e,
     fails_with cal left_crop e
     /\ GazeTracking.refresh self obs
        = (GazeTracking.mk (GazeTracking.eye_left self)
             (GazeTracking.eye_right self) cal, Raise e))
  \/ (exists el cal1 e,
        builds cal 0 left_crop cal1
        /\ fails_with cal1 right_crop e
        /\ GazeTracking.refresh self obs
           = (GazeTracking.mk (Some el) (GazeTracking.eye_right self) cal1,
              Raise e))
  \/ (exists el er cal1 cal2,
        builds cal 0 left_crop cal1
        /\ builds cal1 1 right_crop cal2
        /\ GazeTracking.refresh self obs
           = (GazeTracking.mk (Some el) (Some er) cal2, Ok tt)).
Proof.
  intros Hnb. cbv zeta.
  set (cal := GazeTracking.calibration self) in *.
  unfold GazeTracking.refresh, GazeTracking._analyze. cbv zeta.
  cbn [GazeTracking.faces GazeTracking.gray].
  rewrite py_index_0. fold cal.
  destruct (eye_new_cases gray lm 0 cal (or_introl eq_refl) Hnb)
    as [(e & Hfail & Hl) | (el & cal1 & v & Hbuilt & Hl & _)];
    cbn [Z.eqb] in *; rewrite Hl.
  - left. exists e. split; [exact Hfail |].
    destruct Hfail as [[_ ->] | (_ & _ & _ & ->)]; reflexivity.
  - assert (Hnb1 : (0 < Calibration.nb_frames cal1)%nat)
      by (rewrite (builds_nb_frames _ _ _ _ Hbuilt); exact Hnb).
    destruct (eye_new_cases gray lm 1 cal1 (or_intror eq_refl) Hnb1)
      as [(e & Hfail & Hr) | (er & cal2 & w & Hbuilt2 & Hr & _)];
      cbn [Z.eqb] in *; rewrite Hr.
    + right. left. exists el, cal1, e. split; [exact Hbuilt |].
      split; [exact Hfail |].
      destruct Hfail as [[_ ->] | (_ & _ & _ & ->)]; reflexivity.
    + right. right. exists el, er, cal1, cal2.
      split; [exact Hbuilt | split; [exact Hbuilt2 | reflexivity]].
Qed.

(** C1, as the code has it. [Calibration.evaluate] has no guard of its own:
    whenever [find_best_threshold] returns a threshold it appends it to the
    list of the side it is given, whatever the length of that list. The
    guard is in the caller: [Eye._analyze] calls [evaluate] only while
    [is_complete()] is false, so once both sides have reached [nb_frames]
    samples, building an eye leaves the calibration, and with it both sample
    lists and both thresholds, unchanged. *)
Theorem evaluate_unguarded_analyze_guarded (cal : Calibration.t) :
  (forall frame t,
     Calibration.find_best_threshold frame = Ok t ->
     Calibration.thresholds_left (fst (Calibration.evaluate cal frame 0))
     = Calibration.thresholds_left cal ++ [t]
     /\ Calibration.thresholds_right (fst (Calibration.evaluate cal frame 1))
        = Calibration.thresholds_right cal ++ [t])
  /\ (Calibration.is_complete cal = true ->
      forall frame lm side,
        fst (Eye._analyze frame lm side cal) = cal
        /\ Calibration.threshold (fst (Eye._analyze frame lm side cal)) side
           = Calibration.threshold cal side).
Proof.
  split.
  - intros frame t Hbest. unfold Calibration.evaluate. rewrite Hbest.
    split; reflexivity.
  - intros Hcomplete frame lm side.
    assert (Hsame : fst (Eye._analyze frame lm side cal) = cal).
    { unfold Eye._analyze.
      destruct (side =? 0); [| destruct (side =? 1); [| reflexivity]];
        unfold Eye.analyze_points; cbv zeta;
        destruct (Eye._isolate frame lm _) as [[[self_frame origin] center] region];
        rewrite Hcomplete; reflexivity. }
    rewrite Hsame. split; reflexivity.
Qed.

End EyeCalibration.

(** ** gaze_tracking.py: the session *)

Section Session.
Context {E : External}.

Lemma run_reachable (frames : list GazeTracking.observation) :
  forall self, reachable self -> reachable (run self frames).
Proof.
  induction frames as [| obs rest IH]; intros self Hreach; simpl.
  - exact Hreach.
  - apply IH. apply reachable_refresh. exact Hreach.
Qed.

Lemma is_complete_equal_lengths (cal : Calibration.t) :
  Calibration.nb_frames cal = 20%nat ->
  length (Calibration.thresholds_left cal)
  = length (Calibration.thresholds_right cal) ->
  Calibration.is_complete cal
  = (20 <=? length (Calibration.thresholds_left cal))%nat.
Proof.
  intros Hnb Hlen. unfold Calibration.is_complete. rewrite Hnb, <- Hlen.
  destruct (20 <=? length (Calibration.thresholds_left cal))%nat; reflexivity.
Qed.

(** One frame on which [refresh] returns: both eyes gain a sample, or
    neither does. *)
Lemma refresh_keeps_samples_capped (self : GazeTracking.t)
    (obs : GazeTracking.observation) :
  samples_capped (GazeTracking.calibration self) ->
  snd (GazeTracking.refresh self obs) = Ok tt ->
  samples_capped (GazeTracking.calibration (fst (GazeTracking.refresh self obs))).
Proof.
  intros (Hnb & Hlen & Hcap).
  destruct obs as [gray [| lm others]].
  { rewrite refresh_no_face by reflexivity. intros _.
    repeat split; assumption. }
  set (cal := GazeTracking.calibration self) in *.
  assert (Hpos : (0 < Calibration.nb_frames cal)%nat) by lia.
  destruct (refresh_cases self gray lm others Hpos)
    as [(e & _ & ->)
       | [(el & cal1 & e & _ & _ & ->)
         | (el & er & cal1 & cal2 & [_ Hcal1] & [_ Hcal2] & ->)]];
    cbn [snd fst GazeTracking.calibration]; try discriminate.
  intros _. fold cal in Hcal1.
  rewrite (is_complete_equal_lengths cal Hnb Hlen) in Hcal1.
  destruct (Nat.leb_spec 20 (length (Calibration.thresholds_left cal)))
    as [Hfull | Hroom].
  - subst cal1.
    rewrite (is_complete_equal_lengths cal Hnb Hlen) in Hcal2.
    destruct (Nat.leb_spec 20 (length (Calibration.thresholds_left cal)));
      [| lia].
    subst cal2. repeat split; assumption.
  - destruct Hcal1 as (_ & t1 & _ & ->).
    assert (Hincomplete : Calibration.is_complete (add_sample cal 0 t1) = false).
    { unfold Calibration.is_complete, add_sample. simpl. rewrite Hnb.
      apply andb_false_iff. right. apply Nat.leb_gt. lia. }
    rewrite Hincomplete in Hcal2. destruct Hcal2 as (_ & t2 & _ & ->).
    unfold samples_capped, add_sample. simpl.
    rewrite !length_app. simpl. repeat split; lia.
Qed.

(** Adding a left sample to an incomplete calibration whose right list is no
    longer than its left list leaves it incomplete. *)
Lemma add_left_sample_incomplete (cal : Calibration.t) (t : Z) :
  right_bounded cal ->
  Calibration.is_complete cal = false ->
  Calibration.is_complete (add_sample cal 0 t) = false
  /\ (length (Calibration.thresholds_right (add_sample cal 0 t)) < 20)%nat.
Proof.
  intros (Hnb & Hle & Hcap) Hincomplete.
  unfold Calibration.is_complete in *. unfold add_sample. simpl.
  rewrite Hnb in *. apply andb_false_iff in Hincomplete.
  assert (Hlt : (length (Calibration.thresholds_right cal) < 20)%nat)
    by (destruct Hincomplete as [H | H]; apply Nat.leb_gt in H; lia).
  split; [| exact Hlt].
  apply andb_false_iff. right. apply Nat.leb_gt. exact Hlt.
Qed.

(** The left eye of a frame, built on a calibration whose right list is no
    longer than its left list: the calibration is complete after the build
    exactly when it was before. *)
Lemma builds_left (cal cal1 : Calibration.t) (crop : ndarray) :
  right_bounded cal ->
  builds cal 0 crop cal1 ->
  Calibration.is_complete cal1 = Calibration.is_complete cal
  /\ right_bounded cal1
  /\ (Calibration.is_complete cal = false ->
      (length (Calibration.thresholds_right cal1)
       < length (Calibration.thresholds_left cal1))%nat).
Proof.
  intros Hrb [_ Hcal1].
  destruct (Calibration.is_complete cal) eqn:Hcomplete.
  - subst cal1. split; [exact Hcomplete |]. split; [exact Hrb |]. discriminate.
  - destruct Hcal1 as (_ & t & _ & ->).
    destruct (add_left_sample_incomplete cal t Hrb Hcomplete) as [Hinc Hlt].
    split; [exact Hinc |].
    destruct Hrb as (Hnb & Hle & Hcap).
    unfold right_bounded, add_sample. simpl. rewrite length_app. simpl.
    split; [repeat split; lia |]. intros _. lia.
Qed.

(** What survives an escaped exception: the right list never outgrows the
    left one nor the target. *)
Lemma refresh_keeps_right_bounded (self : GazeTracking.t)
    (obs : GazeTracking.observation) :
  right_bounded (GazeTracking.calibration self) ->
  right_bounded (GazeTracking.calibration (fst (GazeTracking.refresh self obs))).
Proof.
  intros Hrb.
  destruct obs as [gray [| lm others]].
  { rewrite refresh_no_face by reflexivity. exact Hrb. }
  set (cal := GazeTracking.calibration self) in *.
  assert (Hpos : (0 < Calibration.nb_frames cal)%nat)
    by (destruct Hrb as [Hnb _]; lia).
  destruct (refresh_cases self gray lm others Hpos)
    as [(e & _ & ->)
       | [(el & cal1 & e & Hb1 & _ & ->)
         | (el & er & cal1 & cal2 & Hb1 & [_ Hcal2] & ->)]];
    cbn [fst GazeTracking.calibration].
  - exact Hrb.
  - apply (builds_left cal cal1 _ Hrb Hb1).
  - destruct (builds_left cal cal1 _ Hrb Hb1) as (Hsame & Hrb1 & Hroom).
    destruct (Calibration.is_complete cal1) eqn:Hcomplete1.
    + subst cal2. exact Hrb1.
    + destruct Hcal2 as (_ & t2 & _ & ->).
      specialize (Hroom (eq_sym Hsame)).
      destruct Hrb1 as (Hnb1 & Hle1 & Hcap1).
      unfold Calibration.is_complete in Hcomplete1. rewrite Hnb1 in Hcomplete1.
      apply andb_false_iff in Hcomplete1.
      rewrite !Nat.leb_gt in Hcomplete1.
      unfold right_bounded, add_sample. simpl.
      rewrite length_app. simpl. repeat split; lia.
Qed.

Lemma reachable_right_bounded (self : GazeTracking.t) :
  reachable self -> right_bounded (GazeTracking.calibration self).
Proof.
  induction 1 as [| self obs _ IH].
  - repeat split; simpl; lia.
  - apply refresh_keeps_right_bounded. exact IH.
Qed.

(** C9, as the code has it. In every session reached by [refresh] calls that
    all returned (no exception escaped), each side's sample list has at most
    20 entries and the two lists have the same length. *)
Theorem session_samples_capped (self : GazeTracking.t) :
  reachable_normally self ->
  (length (Calibration.thresholds_left (GazeTracking.calibration self)) <= 20)%nat
  /\ (length (Calibration.thresholds_right (GazeTracking.calibration self)) <= 20)%nat
  /\ length (Calibration.thresholds_left (GazeTracking.calibration self))
     = length (Calibration.thresholds_right (GazeTracking.calibration self)).
Proof.
  intros Hreach.
  assert (Hinv : samples_capped (GazeTracking.calibration self)).
  { induction Hreach as [| self obs _ IH Hok].
    - repeat split; simpl; lia.
    - apply refresh_keeps_samples_capped; assumption. }
  destruct Hinv as (_ & Hlen & Hcap). repeat split; lia.
Qed.

End Session.

(** ** gaze_tracking.py: direction and blink queries *)

Section BlinkRatio.
Context {E : External}.

(** An aperture of height zero gives no blink ratio. *)
Lemma blinking_ratio_zero_height (lm : Eye.landmarks) (points : list nat) :
  Eye._middle_point (lm (nth 1 points O)) (lm (nth 2 points O))
  = Eye._middle_point (lm (nth 5 points O)) (lm (nth 4 points O)) ->
  Eye._blinking_ratio lm points = None.
Proof.
  intros Hmid. unfold Eye._blinking_ratio. cbv zeta. rewrite Hmid.
  rewrite !Z.sub_diag. unfold truediv.
  assert (Hzero : (hypot 0 0 == 0)%Q) by (apply hypot_zero; split; reflexivity).
  apply Qeq_bool_iff in Hzero. rewrite Hzero. reflexivity.
Qed.

End BlinkRatio.

(** With both pupils located, a side without a blink ratio makes
    [is_blinking] raise. *)
Lemma is_blinking_undefined_side (self : GazeTracking.t) (el er : Eye.t) :
  GazeTracking.pupils_located self = true ->
  GazeTracking.eye_left self = Some el ->
  GazeTracking.eye_right self = Some er ->
  Eye.blinking el = None \/ Eye.blinking er = None ->
  GazeTracking.is_blinking self = Raise TypeError.
Proof.
  intros Hloc Hl Hr Hnone. unfold GazeTracking.is_blinking.
  rewrite Hloc, Hl, Hr.
  destruct Hnone as [-> | ->]; [reflexivity |].
  destruct (Eye.blinking el); reflexivity.
Qed.

(** C2. The code on a frame whose left eye has an aperture of height zero
    while both pupils are located: the left blink ratio is absent, the right
    one is 2, and [is_blinking] raises [TypeError] instead of returning. *)
Theorem is_blinking_raises_on_undefined_side :
  Eye._blinking_ratio (E := blob_double)
    (eye_landmarks closed_left open_right) Eye.LEFT_EYE_POINTS = None
  /\ option_map Eye.blinking (GazeTracking.eye_left half_closed) = Some None
  /\ (exists ratio,
        option_map Eye.blinking (GazeTracking.eye_right half_closed)
        = Some (Some ratio) /\ (ratio == 2)%Q)
  /\ GazeTracking.pupils_located half_closed = true
  /\ GazeTracking.is_blinking half_closed = Raise TypeError.
Proof.
  split; [apply blinking_ratio_zero_height; reflexivity |].
  split; [vm_compute; reflexivity |].
  split; [exists (8 # 4); split; vm_compute; reflexivity |].
  split; vm_compute; reflexivity.
Qed.

(** [is_right] and [is_left] compare the same ratio with the same constant,
    so one of them holds whenever they return, and [is_center] never returns
    [True]. *)
Lemma is_center_never_true (self : GazeTracking.t) :
  GazeTracking.is_center self <> Ok (Some true).
Proof.
  unfold GazeTracking.is_center, GazeTracking.is_right, GazeTracking.is_left.
  destruct (GazeTracking.pupils_located self); [| discriminate].
  destruct (GazeTracking.horizontal_ratio self) as [[q |] | e]; cbn [bind];
    try discriminate.
  destruct (Qle_bool q (65 # 100)) eqn:Hright; cbn [GazeTracking.is_not_True];
    [discriminate |].
  assert (Hleft : Qle_bool (65 # 100) q = true).
  { apply Qle_bool_iff. apply Qlt_le_weak. apply Qnot_le_lt. intros Hle.
    apply Qle_bool_iff in Hle. congruence. }
  rewrite Hleft. cbn [GazeTracking.is_not_True]. discriminate.
Qed.

(** C3. The code on a frame with each pupil exactly at the centre of its eye
    (crops 210 pixels wide, pupils at x = 105): [horizontal_ratio] is
    105 / 200 = 0.525, [is_right] is [True] because 0.525 <= 0.65, and
    [is_center] is [False]. *)
Theorem is_center_false_at_centre :
  (forall eye, In (Some eye)
                 [GazeTracking.eye_left centred; GazeTracking.eye_right centred] ->
     exists x, Pupil.x (Eye.pupil eye) = Some x
               /\ (inject_Z x == fst (Eye.center eye))%Q)
  /\ (exists ratio, GazeTracking.horizontal_ratio centred = Ok (Some ratio)
                    /\ (ratio == 525 # 1000)%Q)
  /\ GazeTracking.is_right centred = Ok (Some true)
  /\ GazeTracking.is_left centred = Ok (Some false)
  /\ GazeTracking.is_center centred = Ok (Some false).
Proof.
  split.
  - intros eye [Heye | [Heye | []]]; injection Heye as <-;
      exists 105; split; vm_compute; reflexivity.
  - split; [eexists; split; vm_compute; reflexivity |].
    repeat split; vm_compute; reflexivity.
Qed.

(** ** The code run on concrete inputs *)

(** C1 fails on [evaluate] itself: with 20 samples already recorded for the
    left side, one more [evaluate] call for that side appends a 21st sample
    and the left threshold moves from 50 to 47. *)
Lemma evaluate_appends_past_twenty :
  let after := fst (Calibration.evaluate (E := white_double)
                      calibrated (white 12 12) 0) in
  length (Calibration.thresholds_left calibrated) = 20%nat
  /\ Calibration.thresholds_left after
     = Calibration.thresholds_left calibrated ++ [5]
  /\ Calibration.thresholds_left after <> Calibration.thresholds_left calibrated
  /\ Calibration.threshold calibrated 0 = Ok (Some 50)
  /\ Calibration.threshold after 0 = Ok (Some 47).
Proof.
  cbv zeta. split; [reflexivity |].
  split; [vm_compute; reflexivity |].
  split; [vm_compute; discriminate |].
  split; vm_compute; reflexivity.
Qed.

Lemma evaluate_unguarded_analyze_guarded_witness :
  Calibration.is_complete calibrated = true
  /\ fst (Eye._analyze (E := white_double) (white 40 60)
            (eye_landmarks open_left open_right) 0 calibrated) = calibrated
  /\ Calibration.threshold
       (fst (Eye._analyze (E := white_double) (white 40 60)
               (eye_landmarks open_left open_right) 0 calibrated)) 0
     = Calibration.threshold calibrated 0.
Proof.
  split; [reflexivity |].
  apply (proj2 (evaluate_unguarded_analyze_guarded (E := white_double) calibrated)).
  reflexivity.
Defined.

(** C4 fails on a crop 10 pixels high: [find_best_threshold] raises and
    returns no threshold. *)
Lemma find_best_threshold_fails_on_flat_crop :
  Calibration.find_best_threshold (E := white_double) (white 10 18)
  = Raise ZeroDivisionError
  /\ forall t,
       Calibration.find_best_threshold (E := white_double) (white 10 18) <> Ok t.
Proof.
  assert (H : Calibration.find_best_threshold (E := white_double) (white 10 18)
              = Raise ZeroDivisionError) by (vm_compute; reflexivity).
  split; [exact H |]. intros t. rewrite H. discriminate.
Qed.

Lemma find_best_threshold_first_minimiser_witness :
  (10 < height gradient)%nat /\ (10 < width gradient)%nat
  /\ exists (best : Z) (occ : Z -> Q),
       Calibration.find_best_threshold (E := white_double) gradient = Ok best
       /\ In best [5; 10; 15; 20; 25; 30; 35; 40; 45; 50;
                   55; 60; 65; 70; 75; 80; 85; 90; 95]
       /\ (forall c, In c (py_range 5 100 5) ->
             Calibration.trial (E := white_double) gradient c = Ok (occ c))
       /\ (forall c, In c (py_range 5 100 5) ->
             (Calibration.distance (occ best) <= Calibration.distance (occ c))%Q)
       /\ (forall c, In c (py_range 5 100 5) -> c < best ->
             (Calibration.distance (occ best) < Calibration.distance (occ c))%Q).
Proof.
  split; [simpl; lia |]. split; [simpl; lia |].
  apply (find_best_threshold_first_minimiser (E := white_double) gradient);
    simpl; lia.
Defined.

(** Two occupancies at the same exact distance from 0.48 need not tie in the
    code. On [tied], thresholds 5 to 55 leave 55 of the 225 trimmed pixels
    black and thresholds 60 to 95 leave 161: both fractions are 53/225 away
    from 12/25, but the doubles the code compares differ in the last place,
    and [find_best_threshold] returns 60, not 5. *)
Lemma find_best_threshold_on_exact_tie :
  (forall c, In c [5; 10; 15; 20; 25; 30; 35; 40; 45; 50; 55] ->
     Calibration.trial (E := white_double) tied c = Ok (55 # 225))
  /\ (forall c, In c [60; 65; 70; 75; 80; 85; 90; 95] ->
        Calibration.trial (E := white_double) tied c = Ok (161 # 225))
  /\ (Qabs ((55 # 225) - (48 # 100)) == Qabs ((161 # 225) - (48 # 100)))%Q
  /\ (Calibration.distance (161 # 225) < Calibration.distance (55 # 225))%Q
  /\ Calibration.find_best_threshold (E := white_double) tied = Ok 60.
Proof.
  split.
  { intros c Hc. simpl in Hc.
    repeat (destruct Hc as [<- | Hc]; [vm_compute; reflexivity |]).
    contradiction. }
  split.
  { intros c Hc. simpl in Hc.
    repeat (destruct Hc as [<- | Hc]; [vm_compute; reflexivity |]).
    contradiction. }
  split; [vm_compute; reflexivity |].
  split; vm_compute; reflexivity.
Qed.

Lemma threshold_truncated_mean_witness :
  (0 = 0 \/ 0 = 1)
  /\ Calibration.thresholds_left calibrated <> []
  /\ Calibration.threshold calibrated 0
     = Ok (Some (Z.quot (py_sum (Calibration.thresholds_left calibrated))
                        (Z.of_nat (length (Calibration.thresholds_left calibrated))))).
Proof.
  split; [left; reflexivity |]. split; [discriminate |].
  apply (proj1 (threshold_truncated_mean calibrated 0 (or_introl eq_refl))).
  discriminate.
Defined.

Lemma detect_iris_second_largest_witness :
  let iris := binarised (E := blob_double) (white 11 18) 5 in
  let contours := findContours (External := blob_double) iris in
  let ordered := py_sorted (contourArea (External := blob_double)) contours in
  exists pupil,
    Pupil.detect_iris (E := blob_double) (white 11 18) 5 = Ok pupil
    /\ Permutation ordered contours
    /\ StronglySorted (key_le (contourArea (External := blob_double))) ordered
    /\ ((length contours < 2)%nat ->
          Pupil.x pupil = None /\ Pupil.y pupil = None)
    /\ ((2 <= length contours)%nat ->
          exists c,
            nth_error ordered (length ordered - 2) = Some c
            /\ ((contourArea (External := blob_double) c == 0)%Q
                <-> (m00 (moments (External := blob_double) c) == 0)%Q)
            /\ ((m00 (moments (External := blob_double) c) == 0)%Q ->
                  Pupil.x pupil = None /\ Pupil.y pupil = None)
            /\ (~ (m00 (moments (External := blob_double) c) == 0)%Q ->
                  Pupil.x pupil
                  = Some (py_int (m10 (moments (External := blob_double) c)
                                  / m00 (moments (External := blob_double) c)))
                  /\ Pupil.y pupil
                     = Some (py_int (m01 (moments (External := blob_double) c)
                                     / m00 (moments (External := blob_double) c))))).
Proof.
  exact (detect_iris_second_largest (E := blob_double) (white 11 18) 5).
Defined.

Lemma iris_occupancy_monotone_witness :
  85 <= 90
  /\ match Calibration.trial (E := white_double) gradient 85,
           Calibration.trial (E := white_double) gradient 90 with
     | Ok s1, Ok s2 => (s1 <= s2)%Q /\ 0 < trimmed_pixels gradient
     | Raise e1, Raise e2 =>
         e1 = e2 /\ trimmed_pixels gradient = 0
         /\ e1 = (if is_empty gradient then Cv2Error else ZeroDivisionError)
     | _, _ => False
     end.
Proof.
  split; [lia |].
  apply (iris_occupancy_monotone (E := white_double) gradient 85 90). lia.
Defined.

Lemma pupil_coords_origin_plus_local_witness :
  GazeTracking.pupils_located half_closed = true
  /\ exists el er xl yl xr yr,
       GazeTracking.eye_left half_closed = Some el
       /\ GazeTracking.eye_right half_closed = Some er
       /\ Pupil.x (Eye.pupil el) = Some xl /\ Pupil.y (Eye.pupil el) = Some yl
       /\ Pupil.x (Eye.pupil er) = Some xr /\ Pupil.y (Eye.pupil er) = Some yr
       /\ GazeTracking.pupil_left_coords half_closed
          = Some (fst (Eye.origin el) + xl, snd (Eye.origin el) + yl)
       /\ GazeTracking.pupil_right_coords half_closed
          = Some (fst (Eye.origin er) + xr, snd (Eye.origin er) + yr).
Proof.
  split; [vm_compute; reflexivity |].
  apply (pupil_coords_origin_plus_local half_closed).
  vm_compute. reflexivity.
Defined.

(** C9 fails once an exception has escaped [refresh]. On [flat_face] the left
    eye records its sample and the right eye then raises
    [ZeroDivisionError]; twenty ordinary frames later the left list has 21
    samples and the right list 20. *)
Lemma session_cap_broken_after_escape :
  let session := run (E := white_double) GazeTracking.init
                   (flat_face :: repeat open_face 20) in
  snd (GazeTracking.refresh (E := white_double) GazeTracking.init flat_face)
  = Raise ZeroDivisionError
  /\ reachable (E := white_double) session
  /\ length (Calibration.thresholds_left (GazeTracking.calibration session))
     = 21%nat
  /\ length (Calibration.thresholds_right (GazeTracking.calibration session))
     = 20%nat.
Proof.
  cbv zeta. split; [vm_compute; reflexivity |].
  split; [apply run_reachable; apply reachable_init |].
  split; vm_compute; reflexivity.
Qed.

Lemma session_samples_capped_witness :
  reachable_normally (E := white_double)
    (fst (GazeTracking.refresh (E := white_double) GazeTracking.init open_face))
  /\ (length (Calibration.thresholds_left (GazeTracking.calibration
        (fst (GazeTracking.refresh (E := white_double)
                GazeTracking.init open_face)))) <= 20)%nat
  /\ (length (Calibration.thresholds_right (GazeTracking.calibration
        (fst (GazeTracking.refresh (E := white_double)
                GazeTracking.init open_face)))) <= 20)%nat
  /\ length (Calibration.thresholds_left (GazeTracking.calibration
        (fst (GazeTracking.refresh (E := white_double)
                GazeTracking.init open_face))))
     = length (Calibration.thresholds_right (GazeTracking.calibration
        (fst (GazeTracking.refresh (E := white_double)
                GazeTracking.init open_face)))).
Proof.
  assert (Hreach : reachable_normally (E := white_double)
            (fst (GazeTracking.refresh (E := white_double)
                    GazeTracking.init open_face))).
  { apply normally_refresh; [apply normally_init | vm_compute; reflexivity]. }
  split; [exact Hreach |].
  apply (session_samples_capped (E := white_double) _ Hreach).
Defined.

(** C10 fails on an empty eye frame, the crop of an eye less than 5 pixels
    from the left edge of the image (14 pixels high, 0 wide): its width is at
    most 10, but [cv2.bilateralFilter] rejects it with [cv2.error] before any
    pixel is counted, so no division is reached and [find_best_threshold]
    and [evaluate] raise [cv2.error], not [ZeroDivisionError]. *)
Lemma empty_frame_fails_before_division :
  shape (eye_crop (E := white_double) (white 40 60)
           (eye_landmarks edge_left open_right) Eye.LEFT_EYE_POINTS)
  = shape (white 14 0)
  /\ ((height (white 14 0) <= 10)%nat \/ (width (white 14 0) <= 10)%nat)
  /\ (forall t,
        Pupil.image_processing (E := white_double) (white 14 0) t
        = Raise Cv2Error)
  /\ (forall t,
        Calibration.trial (E := white_double) (white 14 0) t = Raise Cv2Error)
  /\ Calibration.find_best_threshold (E := white_double) (white 14 0)
     = Raise Cv2Error
  /\ Calibration.find_best_threshold (E := white_double) (white 14 0)
     <> Raise ZeroDivisionError
  /\ (forall self side,
        Calibration.evaluate (E := white_double) self (white 14 0) side
        = (self, Raise Cv2Error)).
Proof.
  assert (H : Calibration.find_best_threshold (E := white_double) (white 14 0)
              = Raise Cv2Error) by (vm_compute; reflexivity).
  split; [vm_compute; reflexivity |].
  split; [right; simpl; lia |].
  split; [intros t; reflexivity |].
  split; [intros t; reflexivity |].
  split; [exact H |].
  split; [rewrite H; discriminate |].
  intros self side. unfold Calibration.evaluate. rewrite H. reflexivity.
Qed.

Lemma small_frame_division_by_zero_witness :
  ((height (white 10 18) <= 10)%nat \/ (width (white 10 18) <= 10)%nat)
  /\ is_empty (white 10 18) = false
  /\ (forall t,
        exists iris,
          Pupil.image_processing (E := white_double) (white 10 18) t = Ok iris
          /\ (let trimmed := slice2 iris 5 (-5) 5 (-5) in
              Z.of_nat (height trimmed) * Z.of_nat (width trimmed) = 0)
          /\ Calibration.iris_size iris = Raise ZeroDivisionError)
  /\ Calibration.find_best_threshold (E := white_double) (white 10 18)
     = Raise ZeroDivisionError
  /\ (forall self side,
        Calibration.evaluate (E := white_double) self (white 10 18) side
        = (self, Raise ZeroDivisionError)).
Proof.
  split; [left; simpl; lia |]. split; [reflexivity |].
  apply (proj1 (small_frame_division_by_zero (E := white_double) (white 10 18)
                  (or_introl (le_n 10)))).
  reflexivity.
Defined.

(** * Further properties of the code *)

(** ** calibration.py *)

(** X1. Whenever [iris_size] returns, the fraction it returns lies between 0
    and 1. *)
Theorem iris_size_is_a_fraction (frame : ndarray) (s : Q) :
  Calibration.iris_size frame = Ok s -> (0 <= s)%Q /\ (s <= 1)%Q.
Proof.
  rewrite iris_size_eq.
  destruct (Z.eqb_spec (trimmed_pixels frame) 0) as [Hz | Hnz];
    [discriminate |].
  intros Hs. injection Hs as <-.
  pose proof (trimmed_pixels_nonneg frame) as Hn.
  pose proof (countNonZero_bounds (slice2 frame 5 (-5) 5 (-5))) as Hcnt.
  rewrite trim_height, trim_width in Hcnt.
  fold (trimmed_pixels frame) in Hcnt.
  assert (Hpos : (0 < inject_Z (trimmed_pixels frame))%Q).
  { change 0%Q with (inject_Z 0). rewrite <- Zlt_Qlt. lia. }
  split.
  - apply Qle_shift_div_l; [exact Hpos |].
    rewrite Qmult_0_l. change 0%Q with (inject_Z 0). rewrite <- Zle_Qle. lia.
  - apply Qle_shift_div_r; [exact Hpos |].
    rewrite Qmult_1_l. rewrite <- Zle_Qle. lia.
Qed.

Lemma iris_size_is_a_fraction_witness :
  Calibration.iris_size (binarised (E := white_double) gradient 90)
  = Ok (20 # 80)
  /\ (0 <= 20 # 80)%Q /\ (20 # 80 <= 1)%Q.
Proof.
  split; [vm_compute; reflexivity |].
  apply (iris_size_is_a_fraction (binarised (E := white_double) gradient 90)).
  vm_compute. reflexivity.
Defined.

Section ThresholdSearch.
Context {E : External}.

Lemma trials_loop_keys (frame : ndarray) (candidates : list Z) :
  forall acc trials,
    Calibration.trials_loop frame candidates acc = Ok trials ->
    map fst trials = map fst acc ++ candidates.
Proof.
  induction candidates as [| c rest IH]; intros acc trials; simpl.
  - intros Hok. injection Hok as <-. rewrite app_nil_r. reflexivity.
  - destruct (Calibration.trial frame c) as [s | e];
      cbn [bind]; [| discriminate].
    intros Hok. apply IH in Hok. rewrite Hok, map_app, <- app_assoc.
    reflexivity.
Qed.

Lemma min_from_in {A : Type} (key : A -> Q) (l : list A) :
  forall best, In (min_from key best l) (best :: l).
Proof.
  induction l as [| v l IH]; intros best; simpl.
  - left. reflexivity.
  - destruct (IH (if Qlt_bool (key v) (key best) then v else best))
      as [Hhead | Htail].
    + destruct (Qlt_bool (key v) (key best)); [right; left | left]; exact Hhead.
    + right. right. exact Htail.
Qed.

Lemma candidates_in_range (t : Z) : In t (py_range 5 100 5) -> 5 <= t <= 95.
Proof.
  rewrite py_range_candidates. simpl. intros H.
  repeat (destruct H as [<- | H]; [lia |]). contradiction.
Qed.

Lemma find_best_threshold_candidate (frame : ndarray) (t : Z) :
  Calibration.find_best_threshold frame = Ok t -> In t (py_range 5 100 5).
Proof.
  unfold Calibration.find_best_threshold.
  destruct (Calibration.trials_loop frame (py_range 5 100 5) []) as [trials | e]
    eqn:Hloop; cbn [bind]; [| discriminate].
  apply trials_loop_keys in Hloop. simpl in Hloop.
  destruct trials as [| p trials]; cbn [py_min bind]; [discriminate |].
  intros Hok. injection Hok as <-.
  rewrite <- Hloop. apply in_map. apply min_from_in.
Qed.

(** X2. [find_best_threshold] returns exactly on the frames more than 10
    pixels high and wide, and what it returns is then between 5 and 95. On
    every other frame it raises: [cv2.error] when the frame is empty (a
    height or a width of zero), [ZeroDivisionError] otherwise. *)
Theorem find_best_threshold_returns_iff_large (frame : ndarray) :
  ((exists t, Calibration.find_best_threshold frame = Ok t)
   <-> (10 < height frame)%nat /\ (10 < width frame)%nat)
  /\ (forall t, Calibration.find_best_threshold frame = Ok t -> 5 <= t <= 95)
  /\ (forall e, Calibration.find_best_threshold frame = Raise e ->
        small_crop frame
        /\ e = (if is_empty frame then Cv2Error else ZeroDivisionError))
  /\ (small_crop frame ->
      Calibration.find_best_threshold frame
      = Raise (if is_empty frame then Cv2Error else ZeroDivisionError)).
Proof.
  assert (Hsmall : small_crop frame ->
            Calibration.find_best_threshold frame
            = Raise (if is_empty frame then Cv2Error else ZeroDivisionError)).
  { intros Hsmall. destruct (is_empty frame) eqn:Hempty.
    - apply find_best_threshold_empty_frame. exact Hempty.
    - apply find_best_threshold_small_frame; assumption. }
  split; [split |].
  - intros [t Ht].
    destruct (small_or_large frame) as [Hs | Hlarge]; [| exact Hlarge].
    rewrite (Hsmall Hs) in Ht. discriminate.
  - intros [Hh Hw]. apply find_best_threshold_large_frame; assumption.
  - split; [| split].
    + intros t Ht. apply candidates_in_range.
      apply find_best_threshold_candidate with (frame := frame). exact Ht.
    + intros e He. apply find_best_threshold_raises. exact He.
    + exact Hsmall.
Qed.

End ThresholdSearch.

Lemma find_best_threshold_returns_iff_large_witness :
  Calibration.find_best_threshold (E := white_double) gradient = Ok 90
  /\ 5 <= 90 <= 95
  /\ (10 < height gradient)%nat /\ (10 < width gradient)%nat.
Proof.
  assert (H : Calibration.find_best_threshold (E := white_double) gradient = Ok 90)
    by (vm_compute; reflexivity).
  split; [exact H |].
  split.
  - apply (proj1 (proj2 (find_best_threshold_returns_iff_large
                           (E := white_double) gradient)) 90 H).
  - apply (proj1 (proj1 (find_best_threshold_returns_iff_large
                           (E := white_double) gradient))).
    exists 90. exact H.
Defined.

(** ** eye.py *)

Section EyeBuild.
Context {E : External}.

Lemma detect_iris_keeps_inputs (eye_frame : ndarray) (threshold : Z)
    (pupil : Pupil.t) :
  Pupil.detect_iris eye_frame threshold = Ok pupil ->
  Pupil.threshold pupil = threshold
  /\ Pupil.image_processing eye_frame threshold = Ok (Pupil.iris_frame pupil).
Proof.
  unfold Pupil.detect_iris.
  destruct (Pupil.image_processing eye_frame threshold) as [iris | e];
    cbn [bind]; [| discriminate].
  cbv zeta.
  destruct (py_index _ (-2)) as [c | e];
    [| intros H; injection H as <-; split; reflexivity].
  destruct (truediv (m10 (moments c)) (m00 (moments c)));
    [| intros H; injection H as <-; split; reflexivity].
  destruct (truediv (m01 (moments c)) (m00 (moments c)));
    intros H; injection H as <-; split; reflexivity.
Qed.

(** What a built eye holds. *)
Lemma analyze_points_built (frame : ndarray) (lm : Eye.landmarks)
    (points : list nat) (side : Z) (cal cal' : Calibration.t) (eye : Eye.t) :
  Eye.analyze_points frame lm points side cal = (cal', Ok (Some eye)) ->
  exists v,
    Calibration.threshold cal' side = Ok (Some v)
    /\ Eye.frame eye = eye_crop frame lm points
    /\ Pupil.new (eye_crop frame lm points) v = Ok (Eye.pupil eye)
    /\ Eye.blinking eye = Eye._blinking_ratio lm points.
Proof.
  unfold eye_crop, Eye.analyze_points. cbv zeta.
  destruct (Eye._isolate frame lm points) as [[[crop origin] center] region].
  cbn [fst].
  destruct (if negb (Calibration.is_complete cal)
            then Calibration.evaluate cal crop side
            else (cal, Ok tt)) as [cal1 evaluated].
  intros H. injection H as Hcal Hres. subst cal1.
  destruct evaluated as [[] | e]; cbn [bind] in Hres; [| discriminate].
  destruct (Calibration.threshold cal' side) as [[v |] | e];
    cbn [bind] in Hres; try discriminate.
  destruct (Pupil.new crop v) as [pupil | e] eqn:Hpupil;
    cbn [bind] in Hres; [| discriminate].
  injection Hres as <-. exists v.
  split; [reflexivity |]. split; [reflexivity |].
  split; [exact Hpupil | reflexivity].
Qed.

(** X3. An eye built for side 0 or 1 holds the crop of [_isolate] and the
    blink ratio of its six points, and its pupil is searched in that crop
    binarised at the threshold [Calibration.threshold] returns for that side
    on the calibration as the call leaves it, the sample of this very frame
    included. *)
Theorem eye_pupil_uses_side_threshold (frame : ndarray) (lm : Eye.landmarks)
    (side : Z) (cal cal' : Calibration.t) (eye : Eye.t) :
  side = 0 \/ side = 1 ->
  Eye.new frame lm side cal = (cal', Ok (Some eye)) ->
  let points := if side =? 0 then Eye.LEFT_EYE_POINTS else Eye.RIGHT_EYE_POINTS in
  Calibration.threshold cal' side = Ok (Some (Pupil.threshold (Eye.pupil eye)))
  /\ Pupil.image_processing (Eye.frame eye) (Pupil.threshold (Eye.pupil eye))
     = Ok (Pupil.iris_frame (Eye.pupil eye))
  /\ Eye.frame eye = eye_crop frame lm points
  /\ Eye.blinking eye = Eye._blinking_ratio lm points.
Proof.
  intros Hside Hnew points.
  assert (Hbuilt : Eye.analyze_points frame lm points side cal
                   = (cal', Ok (Some eye))).
  { unfold Eye.new, Eye._analyze in Hnew. unfold points.
    destruct Hside as [-> | ->]; exact Hnew. }
  apply analyze_points_built in Hbuilt.
  destruct Hbuilt as (v & Hthr & Hframe & Hpupil & Hblink).
  unfold Pupil.new in Hpupil.
  apply detect_iris_keeps_inputs in Hpupil. destruct Hpupil as [Ht Hi].
  rewrite Ht, Hframe. repeat split; assumption.
Qed.

End EyeBuild.

Section EyeFailure.
Context {E : External}.

Lemma builds_guard (cal cal' : Calibration.t) (side : Z) (crop : ndarray) :
  builds cal side crop cal' ->
  is_empty crop = false
  /\ (Calibration.is_complete cal = false -> ~ small_crop crop).
Proof.
  intros [Hne Hcal]. split; [exact Hne |]. intros Hinc.
  rewrite Hinc in Hcal. destruct Hcal as [Hns _]. exact Hns.
Qed.

(** X4. Building an eye for side 0 or 1 on a calibration with a positive
    target fails in two cases and no other. On an empty crop it raises
    [cv2.error], whatever the calibration. On a crop that is not empty but at
    most 10 pixels high or wide it raises [ZeroDivisionError] while the
    calibration is not complete. A failed build leaves the calibration as it
    was; once the calibration is complete, only an empty crop makes a build
    fail. *)
Theorem eye_build_fails_iff_small_crop (frame : ndarray) (lm : Eye.landmarks)
    (side : Z) (cal : Calibration.t) :
  side = 0 \/ side = 1 ->
  (0 < Calibration.nb_frames cal)%nat ->
  let points := if side =? 0 then Eye.LEFT_EYE_POINTS else Eye.RIGHT_EYE_POINTS in
  let crop := eye_crop frame lm points in
  (snd (Eye.new frame lm side cal) = Raise Cv2Error <-> is_empty crop = true)
  /\ (snd (Eye.new frame lm side cal) = Raise ZeroDivisionError
      <-> is_empty crop = false /\ Calibration.is_complete cal = false
          /\ small_crop crop)
  /\ (forall e, snd (Eye.new frame lm side cal) = Raise e ->
        (e = Cv2Error \/ e = ZeroDivisionError)
        /\ fst (Eye.new frame lm side cal) = cal).
Proof.
  intros Hside Hnb. cbv zeta.
  destruct (eye_new_cases frame lm side cal Hside Hnb)
    as [(e & Hfail & Heq) | (eye & cal' & v & Hbuilt & Heq & _)];
    rewrite Heq; cbn [snd fst].
  - destruct Hfail as [[Hempty ->] | (Hne & Hinc & Hsmall & ->)].
    + split; [split; [intros _; exact Hempty | reflexivity] |].
      split; [split; [discriminate | intros (Hne & _); congruence] |].
      intros e He. injection He as <-. split; [left |]; reflexivity.
    + split; [split; [discriminate | intros Hempty; congruence] |].
      split; [split; [intros _; repeat split; assumption | reflexivity] |].
      intros e He. injection He as <-. split; [right |]; reflexivity.
  - apply builds_guard in Hbuilt. destruct Hbuilt as [Hne Hguard].
    split; [split; [discriminate | intros Hempty; congruence] |].
    split; [split; [discriminate |] | discriminate].
    intros (_ & Hinc & Hsmall). exfalso. exact (Hguard Hinc Hsmall).
Qed.

End EyeFailure.

(** ** gaze_tracking.py: what one [refresh] does *)

Section SessionProperties.
Context {E : External}.





(** X7. After a [refresh] that returns, a reached session holds either no eye
    at all, when the frame showed no face, or both eyes, when it showed
    one. *)
Theorem refresh_sets_both_eyes_or_none (self : GazeTracking.t)
    (obs : GazeTracking.observation) :
  reachable self ->
  snd (GazeTracking.refresh self obs) = Ok tt ->
  let after := fst (GazeTracking.refresh self obs) in
  (GazeTracking.faces obs = []
   /\ GazeTracking.eye_left after = None /\ GazeTracking.eye_right after = None
   /\ GazeTracking.pupils_located after = false)
  \/ (GazeTracking.faces obs <> []
      /\ exists el er,
           GazeTracking.eye_left after = Some el
           /\ GazeTracking.eye_right after = Some er).
Proof.
  intros Hreach. apply reachable_right_bounded in Hreach.
  destruct obs as [gray [| lm others]].
  - rewrite refresh_no_face by reflexivity. intros _. left.
    repeat split; reflexivity.
  - assert (Hpos : (0 < Calibration.nb_frames (GazeTracking.calibration self))%nat)
      by (destruct Hreach as [Hnb _]; lia).
    destruct (refresh_cases self gray lm others Hpos)
      as [(e & _ & ->)
         | [(el & cal1 & e & _ & _ & ->)
           | (el & er & cal1 & cal2 & _ & _ & ->)]];
      cbn [snd fst]; try discriminate; intros _; right;
      (split; [discriminate | exists el, er; split; reflexivity]).
Qed.

End SessionProperties.

Lemma fold_left_add_bounds (lo hi : Z) (l : list Z) :
  Forall (fun t => lo <= t <= hi) l ->
  forall acc,
    acc + lo * Z.of_nat (length l) <= fold_left Z.add l acc
    <= acc + hi * Z.of_nat (length l).
Proof.
  induction 1 as [| t l Ht _ IH]; intros acc.
  - simpl. lia.
  - cbn [fold_left length]. specialize (IH (acc + t)).
    rewrite Nat2Z.inj_succ, <- Z.add_1_r, !Z.mul_add_distr_l, !Z.mul_1_r. lia.
Qed.

(** The truncated mean of samples between two non-negative bounds lies
    between them. *)
Lemma mean_between (lo hi : Z) (l : list Z) (v : Z) :
  0 <= lo ->
  Forall (fun t => lo <= t <= hi) l ->
  Calibration.mean l = Ok v -> lo <= v <= hi.
Proof.
  intros Hlo Hall Hmean.
  assert (Hne : l <> []) by (intros ->; discriminate Hmean).
  rewrite mean_nonempty in Hmean by exact Hne. injection Hmean as <-.
  pose proof (fold_left_add_bounds lo hi l Hall 0) as Hsum.
  fold (py_sum l) in Hsum.
  assert (Hn : 0 < Z.of_nat (length l))
    by (destruct l; [congruence | simpl length; lia]).
  set (n := Z.of_nat (length l)) in *.
  rewrite Z.quot_div_nonneg by nia.
  split.
  - apply Z.div_le_lower_bound; lia.
  - apply Z.div_le_upper_bound; lia.
Qed.

Section SampleLists.
Context {E : External}.

Lemma builds_sample (cal cal' : Calibration.t) (side : Z) (crop : ndarray) :
  builds cal side crop cal' ->
  if Calibration.is_complete cal then cal' = cal
  else exists t, 5 <= t <= 95 /\ cal' = add_sample cal side t.
Proof.
  intros [_ Hcal]. destruct (Calibration.is_complete cal); [exact Hcal |].
  destruct Hcal as (_ & t & Hbest & ->). exists t. split; [| reflexivity].
  apply candidates_in_range.
  apply find_best_threshold_candidate with (frame := crop). exact Hbest.
Qed.

Lemma refresh_appends (self : GazeTracking.t) (obs : GazeTracking.observation) :
  right_bounded (GazeTracking.calibration self) ->
  let cal := GazeTracking.calibration self in
  let cal' := GazeTracking.calibration (fst (GazeTracking.refresh self obs)) in
  exists l r,
    Calibration.thresholds_left cal' = Calibration.thresholds_left cal ++ l
    /\ Calibration.thresholds_right cal' = Calibration.thresholds_right cal ++ r
    /\ Forall (fun t => 5 <= t <= 95) l /\ Forall (fun t => 5 <= t <= 95) r
    /\ (length r <= length l <= 1)%nat.
Proof.
  intros Hrb. cbv zeta.
  destruct obs as [gray [| lm others]].
  - rewrite refresh_no_face by reflexivity. exists [], [].
    cbn [fst GazeTracking.calibration]. rewrite !app_nil_r.
    repeat split; auto.
  - assert (Hpos : (0 < Calibration.nb_frames (GazeTracking.calibration self))%nat)
      by (destruct Hrb as [Hnb _]; lia).
    destruct (refresh_cases self gray lm others Hpos)
      as [(e & _ & ->)
         | [(el & cal1 & e & Hb1 & _ & ->)
           | (el & er & cal1 & cal2 & Hb1 & Hb2 & ->)]];
      cbn [fst GazeTracking.calibration].
    + exists [], []. rewrite !app_nil_r. repeat split; auto.
    + apply builds_sample in Hb1.
      destruct (Calibration.is_complete (GazeTracking.calibration self)).
      * subst cal1. exists [], []. rewrite !app_nil_r. repeat split; auto.
      * destruct Hb1 as (t1 & Ht1 & ->). exists [t1], [].
        unfold add_sample. simpl. rewrite app_nil_r. repeat split; auto.
    + destruct (builds_left _ cal1 _ Hrb Hb1) as (Hsame & _ & _).
      apply builds_sample in Hb1. apply builds_sample in Hb2.
      rewrite Hsame in Hb2.
      destruct (Calibration.is_complete (GazeTracking.calibration self)).
      * subst cal2 cal1. exists [], []. rewrite !app_nil_r. repeat split; auto.
      * destruct Hb1 as (t1 & Ht1 & ->). destruct Hb2 as (t2 & Ht2 & ->).
        exists [t1], [t2]. unfold add_sample. simpl. repeat split; auto.
Qed.

(** X8. The sample lists are append-only: over any sequence of frames fed to
    a reached session, failed calls included, each list keeps the samples it
    had, in order, and gains at most one sample per frame, the right list
    never more than the left one. *)
Theorem sample_lists_are_append_only (frames : list GazeTracking.observation) :
  forall self,
    reachable self ->
    exists l r,
      Calibration.thresholds_left (GazeTracking.calibration (run self frames))
      = Calibration.thresholds_left (GazeTracking.calibration self) ++ l
      /\ Calibration.thresholds_right (GazeTracking.calibration (run self frames))
         = Calibration.thresholds_right (GazeTracking.calibration self) ++ r
      /\ (length r <= length l <= length frames)%nat.
Proof.
  induction frames as [| obs rest IH]; intros self Hreach.
  - exists [], []. simpl. rewrite !app_nil_r. repeat split; lia.
  - destruct (refresh_appends self obs (reachable_right_bounded self Hreach))
      as (l1 & r1 & Hl1 & Hr1 & _ & _ & Hlen1).
    destruct (IH (fst (GazeTracking.refresh self obs))
                (reachable_refresh self obs Hreach))
      as (l2 & r2 & Hl2 & Hr2 & Hlen2).
    exists (l1 ++ l2), (r1 ++ r2). cbn [run].
    rewrite Hl2, Hr2, Hl1, Hr1, <- !app_assoc, !length_app. simpl length.
    repeat split; lia.
Qed.

(** X9. In every reached session all recorded samples lie between 5 and 95,
    and so does every threshold [Calibration.threshold] returns for side 0
    or 1. *)
Theorem session_thresholds_between_5_and_95 (self : GazeTracking.t) :
  reachable self ->
  let cal := GazeTracking.calibration self in
  Forall (fun t => 5 <= t <= 95) (Calibration.thresholds_left cal)
  /\ Forall (fun t => 5 <= t <= 95) (Calibration.thresholds_right cal)
  /\ (forall side v,
        side = 0 \/ side = 1 ->
        Calibration.threshold cal side = Ok (Some v) -> 5 <= v <= 95).
Proof.
  intros Hreach. cbv zeta.
  assert (Hall :
    Forall (fun t => 5 <= t <= 95)
      (Calibration.thresholds_left (GazeTracking.calibration self))
    /\ Forall (fun t => 5 <= t <= 95)
         (Calibration.thresholds_right (GazeTracking.calibration self))).
  { induction Hreach as [| self obs Hreach [IHl IHr]].
    - split; constructor.
    - destruct (refresh_appends self obs (reachable_right_bounded self Hreach))
        as (l & r & -> & -> & Hl & Hr & _).
      split; apply Forall_app; split; assumption. }
  destruct Hall as [Hleft Hright]. split; [exact Hleft |]. split; [exact Hright |].
  intros side v Hside Hthr.
  rewrite (threshold_is_mean _ side Hside) in Hthr.
  destruct (Calibration.mean
              (if side =? 0
               then Calibration.thresholds_left (GazeTracking.calibration self)
               else Calibration.thresholds_right (GazeTracking.calibration self)))
    as [m | e] eqn:Hmean; cbn [bind] in Hthr; [| discriminate].
  injection Hthr as <-.
  apply (mean_between 5 95) in Hmean; [exact Hmean | lia |].
  destruct Hside as [-> | ->]; assumption.
Qed.

End SampleLists.

Section CalibrationProgress.
Context {E : External}.

Lemma samples_capped_right_bounded (cal : Calibration.t) :
  samples_capped cal -> right_bounded cal.
Proof. intros (Hnb & Hlen & Hcap). repeat split; lia. Qed.

Lemma refresh_face_counts (self : GazeTracking.t)
    (obs : GazeTracking.observation) :
  samples_capped (GazeTracking.calibration self) ->
  GazeTracking.faces obs <> [] ->
  snd (GazeTracking.refresh self obs) = Ok tt ->
  let cal' := GazeTracking.calibration (fst (GazeTracking.refresh self obs)) in
  samples_capped cal'
  /\ length (Calibration.thresholds_left cal')
     = Nat.min (S (length (Calibration.thresholds_left
                             (GazeTracking.calibration self)))) 20.
Proof.
  intros Hcapped Hfaces. cbv zeta.
  pose proof Hcapped as (Hnb & Hlen & Hcap).
  pose proof (samples_capped_right_bounded _ Hcapped) as Hrb.
  destruct obs as [gray [| lm others]]; [contradiction Hfaces; reflexivity |].
  assert (Hpos : (0 < Calibration.nb_frames (GazeTracking.calibration self))%nat)
    by lia.
  destruct (refresh_cases self gray lm others Hpos)
    as [(e & _ & ->)
       | [(el & cal1 & e & _ & _ & ->)
         | (el & er & cal1 & cal2 & Hb1 & Hb2 & ->)]];
    cbn [snd fst GazeTracking.calibration]; try discriminate; intros _.
  destruct (builds_left _ cal1 _ Hrb Hb1) as (Hsame & _ & _).
  apply builds_sample in Hb1. apply builds_sample in Hb2.
  rewrite Hsame in Hb2.
  pose proof (is_complete_equal_lengths _ Hnb Hlen) as Hc.
  destruct (Calibration.is_complete (GazeTracking.calibration self)).
  - subst cal2 cal1. symmetry in Hc. apply Nat.leb_le in Hc.
    split; [exact Hcapped | lia].
  - destruct Hb1 as (t1 & _ & ->). destruct Hb2 as (t2 & _ & ->).
    symmetry in Hc. apply Nat.leb_gt in Hc.
    unfold samples_capped, add_sample. simpl. rewrite !length_app. simpl.
    repeat split; lia.
Qed.

Lemma run_counts (frames : list GazeTracking.observation) :
  forall self,
    samples_capped (GazeTracking.calibration self) ->
    all_return self frames ->
    Forall (fun obs => GazeTracking.faces obs <> []) frames ->
    samples_capped (GazeTracking.calibration (run self frames))
    /\ length (Calibration.thresholds_left
                 (GazeTracking.calibration (run self frames)))
       = Nat.min (length (Calibration.thresholds_left
                            (GazeTracking.calibration self))
                  + length frames) 20.
Proof.
  induction frames as [| obs rest IH]; intros self Hcapped Hall Hfaces.
  - simpl. split; [exact Hcapped |].
    destruct Hcapped as (_ & _ & Hcap). lia.
  - destruct Hall as [Hok Hall]. inversion Hfaces as [| ? ? Hface Hfaces']; subst.
    destruct (refresh_face_counts self obs Hcapped Hface Hok) as [Hcapped' Hlen'].
    destruct (IH _ Hcapped' Hall Hfaces') as [Hfinal Hcount].
    cbn [run]. split; [exact Hfinal |].
    rewrite Hcount, Hlen'. simpl length. lia.
Qed.

(** X10. Calibration takes twenty frames: after [n] frames that all show a
    face and on which [refresh] returns, a new session has [min n 20] samples
    on each side, so [is_complete()] holds exactly from the twentieth such
    frame on. *)
Theorem calibration_completes_after_20_faces
    (frames : list GazeTracking.observation) :
  all_return GazeTracking.init frames ->
  Forall (fun obs => GazeTracking.faces obs <> []) frames ->
  let cal := GazeTracking.calibration (run GazeTracking.init frames) in
  length (Calibration.thresholds_left cal) = Nat.min (length frames) 20
  /\ length (Calibration.thresholds_right cal) = Nat.min (length frames) 20
  /\ Calibration.is_complete cal = (20 <=? length frames)%nat.
Proof.
  intros Hall Hfaces. cbv zeta.
  assert (Hinit : samples_capped (GazeTracking.calibration GazeTracking.init))
    by (repeat split; simpl; lia).
  destruct (run_counts frames GazeTracking.init Hinit Hall Hfaces)
    as [(Hnb & Hlen & Hcap) Hcount].
  simpl in Hcount. split; [exact Hcount |]. split; [lia |].
  rewrite (is_complete_equal_lengths _ Hnb Hlen), Hcount.
  destruct (Nat.leb_spec 20 (length frames));
    [apply Nat.leb_le | apply Nat.leb_gt]; lia.
Qed.

End CalibrationProgress.

(** ** pupil.py *)

Section PupilCoordinates.
Context {E : External}.

(** X11. A pupil has both coordinates or neither: [detect_iris] never leaves
    [x] set with [y] absent, nor the converse. [Pupil(eye_frame, threshold)]
    fails on an empty eye frame only, with [cv2.error]. *)
Theorem pupil_coordinates_both_or_neither (eye_frame : ndarray) (threshold : Z) :
  match Pupil.new eye_frame threshold with
  | Ok pupil =>
      is_empty eye_frame = false
      /\ ((Pupil.x pupil = None /\ Pupil.y pupil = None)
          \/ (exists x y, Pupil.x pupil = Some x /\ Pupil.y pupil = Some y))
  | Raise e => is_empty eye_frame = true /\ e = Cv2Error
  end.
Proof.
  unfold Pupil.new, Pupil.detect_iris. rewrite image_processing_eq.
  destruct (is_empty eye_frame); cbn [bind]; [split; reflexivity |].
  cbv zeta.
  destruct (py_index _ (-2)) as [c | e];
    [| split; [reflexivity | left; split; reflexivity]].
  unfold truediv.
  destruct (Qeq_bool (m00 (moments c)) 0).
  - split; [reflexivity | left; split; reflexivity].
  - split; [reflexivity | right; eexists; eexists; split; reflexivity].
Qed.

(** X12. When [image_processing] returns a frame with exactly two contours,
    [detect_iris] returns and reads the pupil from the one of smaller area,
    and from the first of the two when the areas are equal. *)
Theorem two_contours_smaller_is_the_iris (eye_frame : ndarray) (threshold : Z)
    (iris : ndarray) (a b : contour) :
  Pupil.image_processing eye_frame threshold = Ok iris ->
  findContours iris = [a; b] ->
  let c := if Qle_bool (contourArea a) (contourArea b) then a else b in
  exists pupil,
    Pupil.detect_iris eye_frame threshold = Ok pupil
    /\ (contourArea c <= contourArea a)%Q /\ (contourArea c <= contourArea b)%Q
    /\ ((m00 (moments c) == 0)%Q -> Pupil.x pupil = None /\ Pupil.y pupil = None)
    /\ (~ (m00 (moments c) == 0)%Q ->
          Pupil.x pupil = Some (py_int (m10 (moments c) / m00 (moments c)))
          /\ Pupil.y pupil = Some (py_int (m01 (moments c) / m00 (moments c)))).
Proof.
  intros Hiris Hcontours. cbv zeta.
  unfold Pupil.detect_iris. rewrite Hiris. cbn [bind]. cbv zeta.
  rewrite Hcontours. cbn [py_sorted insert_by].
  destruct (Qle_bool (contourArea a) (contourArea b)) eqn:Hle.
  - apply Qle_bool_iff in Hle.
    change (py_index [a; b] (-2)) with (@Ok contour a). unfold truediv.
    destruct (Qeq_bool (m00 (moments a)) 0) eqn:Hz.
    + eexists. split; [reflexivity |].
      split; [apply Qle_refl |]. split; [exact Hle |].
      apply Qeq_bool_iff in Hz. split; [intros _; split; reflexivity |].
      intros Hnz. contradiction.
    + eexists. split; [reflexivity |].
      split; [apply Qle_refl |]. split; [exact Hle |].
      split; [| intros _; split; reflexivity].
      intros Hzero. apply Qeq_bool_iff in Hzero. congruence.
  - assert (Hlt : (contourArea b <= contourArea a)%Q).
    { apply Qlt_le_weak. apply Qnot_le_lt. intros Hc.
      apply Qle_bool_iff in Hc. congruence. }
    change (py_index [b; a] (-2)) with (@Ok contour b). unfold truediv.
    destruct (Qeq_bool (m00 (moments b)) 0) eqn:Hz.
    + eexists. split; [reflexivity |].
      split; [exact Hlt |]. split; [apply Qle_refl |].
      apply Qeq_bool_iff in Hz. split; [intros _; split; reflexivity |].
      intros Hnz. contradiction.
    + eexists. split; [reflexivity |].
      split; [exact Hlt |]. split; [apply Qle_refl |].
      split; [| intros _; split; reflexivity].
      intros Hzero. apply Qeq_bool_iff in Hzero. congruence.
Qed.

End PupilCoordinates.

(** ** eye.py: geometry *)

Lemma quot_2_between (a b : Z) :
  Z.min a b <= Z.quot (a + b) 2 <= Z.max a b.
Proof.
  pose proof (Z.quot_rem' (a + b) 2) as Hqr.
  destruct (Z_le_gt_dec 0 (a + b)) as [Hpos | Hneg].
  - pose proof (Z.rem_bound_pos (a + b) 2 Hpos ltac:(lia)). lia.
  - pose proof (Z.rem_bound_pos_neg (a + b) 2 ltac:(lia) ltac:(lia)). lia.
Qed.

(** X13. The point [_middle_point] returns lies, coordinate by coordinate,
    between the two points it is given; its coordinates are the sums halved
    and truncated toward zero. *)
Theorem middle_point_between (p1 p2 : point) :
  let m := Eye._middle_point p1 p2 in
  fst m = Z.quot (fst p1 + fst p2) 2
  /\ snd m = Z.quot (snd p1 + snd p2) 2
  /\ Z.min (fst p1) (fst p2) <= fst m <= Z.max (fst p1) (fst p2)
  /\ Z.min (snd p1) (snd p2) <= snd m <= Z.max (snd p1) (snd p2).
Proof.
  cbv zeta. unfold Eye._middle_point. cbn [fst snd].
  change 2%Q with (inject_Z 2).
  rewrite !py_int_quotient by lia.
  repeat split; apply quot_2_between.
Qed.

Section BlinkRatioDefined.
Context {E : External}.

(** X14. [_blinking_ratio] returns no ratio exactly when the midpoint of the
    upper lid and the midpoint of the lower lid coincide; otherwise it
    returns the corner-to-corner distance divided by the distance between
    the two midpoints. *)
Theorem blinking_ratio_absent_iff_lids_meet (lm : Eye.landmarks)
    (points : list nat) :
  let top := Eye._middle_point (lm (nth 1 points O)) (lm (nth 2 points O)) in
  let bottom := Eye._middle_point (lm (nth 5 points O)) (lm (nth 4 points O)) in
  let left := lm (nth 0 points O) in
  let right := lm (nth 3 points O) in
  (Eye._blinking_ratio lm points = None <-> top = bottom)
  /\ (top <> bottom ->
      Eye._blinking_ratio lm points
      = Some (hypot (fst left - fst right) (snd left - snd right)
              / hypot (fst top - fst bottom) (snd top - snd bottom))%Q).
Proof.
  cbv zeta. unfold Eye._blinking_ratio. cbv zeta.
  set (top := Eye._middle_point (lm (nth 1 points O)) (lm (nth 2 points O))).
  set (bottom := Eye._middle_point (lm (nth 5 points O)) (lm (nth 4 points O))).
  unfold truediv.
  destruct (Qeq_bool (hypot (fst top - fst bottom) (snd top - snd bottom)) 0)
    eqn:Hz.
  - apply Qeq_bool_iff, hypot_zero in Hz. destruct Hz as [Hx Hy].
    assert (Heq : top = bottom).
    { destruct top, bottom. cbn [fst snd] in *. f_equal; lia. }
    split; [split; auto |]. intros Hne. contradiction.
  - assert (Hne : top <> bottom).
    { intros Heq. rewrite Heq, !Z.sub_diag in Hz.
      assert (Hzero : (hypot 0 0 == 0)%Q) by (apply hypot_zero; split; reflexivity).
      apply Qeq_bool_iff in Hzero. congruence. }
    split; [split; [discriminate | contradiction] |].
    intros _. reflexivity.
Qed.

End BlinkRatioDefined.

Lemma fold_min_le (l : list Z) : forall v, fold_left Z.min l v <= v.
Proof.
  induction l as [| a l IH]; intros v; simpl; [lia |].
  specialize (IH (Z.min v a)). lia.
Qed.

Lemma fold_max_ge (l : list Z) : forall v, v <= fold_left Z.max l v.
Proof.
  induction l as [| a l IH]; intros v; simpl; [lia |].
  specialize (IH (Z.max v a)). lia.
Qed.

Lemma np_min_le_np_max (l : list Z) : Eye.np_min l <= Eye.np_max l.
Proof.
  destruct l as [| v l]; simpl; [lia |].
  pose proof (fold_min_le l v). pose proof (fold_max_ge l v). lia.
Qed.

Lemma slice_bounds_inside (n : nat) (a b : Z) :
  0 <= a -> a <= b -> b <= Z.of_nat n ->
  slice_bounds n a b = (Z.to_nat a, Z.to_nat (b - a)).
Proof.
  intros Ha Hab Hb. unfold slice_bounds, slice_index.
  destruct (Z.ltb_spec a 0); [lia |]. destruct (Z.ltb_spec b 0); [lia |].
  f_equal; lia.
Qed.

Lemma slice_bounds_wrapped (n : nat) (a b : Z) :
  a < 0 -> 0 <= b -> b - a <= Z.of_nat n ->
  snd (slice_bounds n a b) = 0%nat.
Proof.
  intros Ha Hb Hlen. unfold slice_bounds, slice_index. cbn [snd].
  destruct (Z.ltb_spec a 0); [| lia]. destruct (Z.ltb_spec b 0); [lia |].
  lia.
Qed.

Section Isolate.
Context {E : External}.

Lemma mask_region_height (a : ndarray) (r : list point) :
  height (mask_region a r) = height a.
Proof. pose proof (mask_region_shape a r) as H. unfold shape in H. congruence. Qed.

Lemma mask_region_width (a : ndarray) (r : list point) :
  width (mask_region a r) = width a.
Proof. pose proof (mask_region_shape a r) as H. unfold shape in H. congruence. Qed.

(** X15. When the bounding box of the eye's points, widened by the 5-pixel
    margin, lies inside the frame, [_isolate] crops exactly that box: the
    origin is its top-left corner, the crop is [max - min + 10] pixels along
    each axis (so at least 10), the centre is half the crop's size, and the
    pixel at [(i, j)] of the crop is the pixel of the masked frame at the
    origin plus [(i, j)]. *)
Theorem isolate_crops_the_margin_box (frame : ndarray) (lm : Eye.landmarks)
    (points : list nat) :
  let region := map lm points in
  let xs := map fst region in
  let ys := map snd region in
  5 <= Eye.np_min xs -> Eye.np_max xs + 5 <= Z.of_nat (width frame) ->
  5 <= Eye.np_min ys -> Eye.np_max ys + 5 <= Z.of_nat (height frame) ->
  let isolated := Eye._isolate frame lm points in
  let crop := fst (fst (fst isolated)) in
  let origin := snd (fst (fst isolated)) in
  let center := snd (fst isolated) in
  origin = (Eye.np_min xs - 5, Eye.np_min ys - 5)
  /\ Z.of_nat (width crop) = Eye.np_max xs - Eye.np_min xs + 10
  /\ Z.of_nat (height crop) = Eye.np_max ys - Eye.np_min ys + 10
  /\ (10 <= width crop)%nat /\ (10 <= height crop)%nat
  /\ center = ((inject_Z (Z.of_nat (width crop)) / 2)%Q,
               (inject_Z (Z.of_nat (height crop)) / 2)%Q)
  /\ (forall i j,
        px crop i j
        = px (mask_region frame region)
             (i + Z.to_nat (snd origin))%nat (j + Z.to_nat (fst origin))%nat).
Proof.
  intros region xs ys Hx0 Hx1 Hy0 Hy1. cbv zeta.
  pose proof (np_min_le_np_max xs) as Hxs.
  pose proof (np_min_le_np_max ys) as Hys.
  unfold Eye._isolate. cbv zeta. fold region. fold xs. fold ys.
  unfold shape, slice2, Eye.margin.
  rewrite mask_region_height, mask_region_width.
  rewrite (slice_bounds_inside (height frame)) by lia.
  rewrite (slice_bounds_inside (width frame)) by lia.
  cbn [fst snd height width px].
  repeat split; try reflexivity; lia.
Qed.

(** X16. When the margin box starts left of column 0 (or above row 0) while
    it is no larger than the frame and ends inside it, the negative slice
    start wraps around and the crop is empty along that axis. *)
Theorem isolate_crop_is_empty_past_the_edge (frame : ndarray)
    (lm : Eye.landmarks) (points : list nat) :
  let xs := map fst (map lm points) in
  let ys := map snd (map lm points) in
  (Eye.np_min xs < 5 -> 0 <= Eye.np_max xs + 5 ->
   Eye.np_max xs - Eye.np_min xs + 10 <= Z.of_nat (width frame) ->
   width (eye_crop frame lm points) = 0%nat
   /\ small_crop (eye_crop frame lm points))
  /\ (Eye.np_min ys < 5 -> 0 <= Eye.np_max ys + 5 ->
      Eye.np_max ys - Eye.np_min ys + 10 <= Z.of_nat (height frame) ->
      height (eye_crop frame lm points) = 0%nat
      /\ small_crop (eye_crop frame lm points)).
Proof.
  cbv zeta. unfold eye_crop, Eye._isolate. cbv zeta.
  unfold shape, slice2, Eye.margin.
  rewrite mask_region_height, mask_region_width.
  set (xs := map fst (map lm points)). set (ys := map snd (map lm points)).
  split.
  - intros H0 H1 H2.
    pose proof (slice_bounds_wrapped (width frame)
                  (Eye.np_min xs - 5) (Eye.np_max xs + 5)) as Hw.
    destruct (slice_bounds (width frame) (Eye.np_min xs - 5) (Eye.np_max xs + 5))
      as [clo clen].
    destruct (slice_bounds (height frame) (Eye.np_min ys - 5) (Eye.np_max ys + 5))
      as [rlo rlen].
    cbn [fst snd height width] in *.
    assert (Hz : clen = 0%nat) by (apply Hw; lia).
    split; [exact Hz |]. right. cbn [width]. lia.
  - intros H0 H1 H2.
    pose proof (slice_bounds_wrapped (height frame)
                  (Eye.np_min ys - 5) (Eye.np_max ys + 5)) as Hh.
    destruct (slice_bounds (width frame) (Eye.np_min xs - 5) (Eye.np_max xs + 5))
      as [clo clen].
    destruct (slice_bounds (height frame) (Eye.np_min ys - 5) (Eye.np_max ys + 5))
      as [rlo rlen].
    cbn [fst snd height width] in *.
    assert (Hz : rlen = 0%nat) by (apply Hh; lia).
    split; [exact Hz |]. left. cbn [height]. lia.
Qed.

End Isolate.

(** ** gaze_tracking.py: queries *)

Lemma pupils_located_iff (self : GazeTracking.t) :
  GazeTracking.pupils_located self = true
  <-> exists el er xl yl xr yr,
        GazeTracking.eye_left self = Some el
        /\ GazeTracking.eye_right self = Some er
        /\ Pupil.x (Eye.pupil el) = Some xl /\ Pupil.y (Eye.pupil el) = Some yl
        /\ Pupil.x (Eye.pupil er) = Some xr /\ Pupil.y (Eye.pupil er) = Some yr.
Proof.
  unfold GazeTracking.pupils_located. split.
  - destruct (GazeTracking.eye_left self) as [el |]; [| discriminate].
    destruct (GazeTracking.eye_right self) as [er |]; [| discriminate].
    destruct (Pupil.x (Eye.pupil el)) as [xl |] eqn:Hxl; [| discriminate].
    destruct (Pupil.y (Eye.pupil el)) as [yl |] eqn:Hyl; [| discriminate].
    destruct (Pupil.x (Eye.pupil er)) as [xr |] eqn:Hxr; [| discriminate].
    destruct (Pupil.y (Eye.pupil er)) as [yr |] eqn:Hyr; [| discriminate].
    intros _. exists el, er, xl, yl, xr, yr. repeat split; assumption.
  - intros (el & er & xl & yl & xr & yr & -> & -> & -> & -> & -> & ->).
    reflexivity.
Qed.

(** X17. [pupils_located] holds exactly when both eyes are present and all
    four pupil coordinates are defined; when it does not hold, every query
    returns [None] and none raises. *)
Theorem queries_absent_unless_pupils_located (self : GazeTracking.t) :
  (GazeTracking.pupils_located self = true
   <-> exists el er xl yl xr yr,
         GazeTracking.eye_left self = Some el
         /\ GazeTracking.eye_right self = Some er
         /\ Pupil.x (Eye.pupil el) = Some xl /\ Pupil.y (Eye.pupil el) = Some yl
         /\ Pupil.x (Eye.pupil er) = Some xr /\ Pupil.y (Eye.pupil er) = Some yr)
  /\ (GazeTracking.pupils_located self = false ->
      GazeTracking.pupil_left_coords self = None
      /\ GazeTracking.pupil_right_coords self = None
      /\ GazeTracking.horizontal_ratio self = Ok None
      /\ GazeTracking.vertical_ratio self = Ok None
      /\ GazeTracking.is_right self = Ok None
      /\ GazeTracking.is_left self = Ok None
      /\ GazeTracking.is_center self = Ok None
      /\ GazeTracking.is_blinking self = Ok None).
Proof.
  split; [apply pupils_located_iff |].
  intros Hloc.
  unfold GazeTracking.pupil_left_coords, GazeTracking.pupil_right_coords,
    GazeTracking.horizontal_ratio, GazeTracking.vertical_ratio,
    GazeTracking.is_right, GazeTracking.is_left, GazeTracking.is_center,
    GazeTracking.is_blinking.
  rewrite Hloc. repeat split; reflexivity.
Qed.

Lemma axis_ratio_outcome (v : Z) (c : Q) :
  ((c == 5)%Q /\ GazeTracking.axis_ratio (Some v) c = Raise ZeroDivisionError)
  \/ (~ (c == 5)%Q
      /\ GazeTracking.axis_ratio (Some v) c = Ok (inject_Z v / (c * 2 - 10))%Q).
Proof.
  unfold GazeTracking.axis_ratio, truediv.
  destruct (Qeq_bool (c * 2 - 10) 0) eqn:Hz.
  - left. apply Qeq_bool_iff in Hz. split; [lra | reflexivity].
  - right. split; [| reflexivity]. intros Hc.
    assert (Hzero : (c * 2 - 10 == 0)%Q) by lra.
    apply Qeq_bool_iff in Hzero. congruence.
Qed.

Lemma mean_ratio_outcome (vl vr : Z) (cl cr : Q) :
  let mean_ratio :=
    pupil_left <- GazeTracking.axis_ratio (Some vl) cl ;;
    pupil_right <- GazeTracking.axis_ratio (Some vr) cr ;;
    Ok (Some ((pupil_left + pupil_right) / 2)%Q) in
  (mean_ratio = Raise ZeroDivisionError <-> (cl == 5)%Q \/ (cr == 5)%Q)
  /\ (~ ((cl == 5)%Q \/ (cr == 5)%Q) ->
      mean_ratio
      = Ok (Some ((inject_Z vl / (cl * 2 - 10)
                   + inject_Z vr / (cr * 2 - 10)) / 2)%Q)).
Proof.
  cbv zeta.
  destruct (axis_ratio_outcome vl cl) as [[Hcl ->] | [Hcl ->]]; cbn [bind].
  - split; [split; [intros _; left; exact Hcl | reflexivity] |].
    intros Hn. exfalso. apply Hn. left. exact Hcl.
  - destruct (axis_ratio_outcome vr cr) as [[Hcr ->] | [Hcr ->]]; cbn [bind].
    + split; [split; [intros _; right; exact Hcr | reflexivity] |].
      intros Hn. exfalso. apply Hn. right. exact Hcr.
    + split; [split; [discriminate | intros [H | H]; contradiction] |].
      intros _. reflexivity.
Qed.

(** X18. With both pupils located, [horizontal_ratio] raises
    [ZeroDivisionError] exactly when the centre abscissa of one of the two
    crops is 5, that is when a crop is 10 pixels wide; otherwise it returns
    the mean of the two quotients [pupil.x / (center[0] * 2 - 10)].
    [vertical_ratio] does the same with the ordinates. *)
Theorem ratios_fail_iff_crop_has_no_aperture (self : GazeTracking.t)
    (el er : Eye.t) (xl yl xr yr : Z) :
  GazeTracking.eye_left self = Some el ->
  GazeTracking.eye_right self = Some er ->
  Pupil.x (Eye.pupil el) = Some xl -> Pupil.y (Eye.pupil el) = Some yl ->
  Pupil.x (Eye.pupil er) = Some xr -> Pupil.y (Eye.pupil er) = Some yr ->
  (GazeTracking.horizontal_ratio self = Raise ZeroDivisionError
   <-> (fst (Eye.center el) == 5)%Q \/ (fst (Eye.center er) == 5)%Q)
  /\ (~ ((fst (Eye.center el) == 5)%Q \/ (fst (Eye.center er) == 5)%Q) ->
      GazeTracking.horizontal_ratio self
      = Ok (Some ((inject_Z xl / (fst (Eye.center el) * 2 - 10)
                   + inject_Z xr / (fst (Eye.center er) * 2 - 10)) / 2)%Q))
  /\ (GazeTracking.vertical_ratio self = Raise ZeroDivisionError
      <-> (snd (Eye.center el) == 5)%Q \/ (snd (Eye.center er) == 5)%Q)
  /\ (~ ((snd (Eye.center el) == 5)%Q \/ (snd (Eye.center er) == 5)%Q) ->
      GazeTracking.vertical_ratio self
      = Ok (Some ((inject_Z yl / (snd (Eye.center el) * 2 - 10)
                   + inject_Z yr / (snd (Eye.center er) * 2 - 10)) / 2)%Q)).
Proof.
  intros Hl Hr Hxl Hyl Hxr Hyr.
  assert (Hloc : GazeTracking.pupils_located self = true).
  { apply pupils_located_iff. exists el, er, xl, yl, xr, yr.
    repeat split; assumption. }
  unfold GazeTracking.horizontal_ratio, GazeTracking.vertical_ratio.
  rewrite Hloc, Hl, Hr, Hxl, Hyl, Hxr, Hyr.
  destruct (mean_ratio_outcome xl xr (fst (Eye.center el)) (fst (Eye.center er)))
    as [Hh1 Hh2].
  destruct (mean_ratio_outcome yl yr (snd (Eye.center el)) (snd (Eye.center er)))
    as [Hv1 Hv2].
  repeat split; try apply Hh1; try apply Hh2; try apply Hv1; try apply Hv2.
Qed.

Lemma axis_ratio_in_unit_interval (coord : option Z) (c : Q) :
  within_aperture coord c ->
  exists q, GazeTracking.axis_ratio coord c = Ok q /\ (0 <= q)%Q /\ (q <= 1)%Q.
Proof.
  intros (v & -> & Hlo & Hhi & Hpos).
  destruct (axis_ratio_outcome v c) as [[Hc _] | [_ ->]]; [lra |].
  eexists. split; [reflexivity |]. split.
  - apply Qle_shift_div_l; lra.
  - apply Qle_shift_div_r; lra.
Qed.

(** X19. When both pupils lie inside their eye's aperture (between 0 and the
    crop's length less its two 5-pixel margins, along the axis), the ratio
    returned for that axis lies between 0 and 1. Nothing in the code keeps a
    pupil inside the aperture, so the bound is conditional. *)
Theorem ratios_between_0_and_1_inside_aperture (self : GazeTracking.t)
    (el er : Eye.t) :
  GazeTracking.pupils_located self = true ->
  GazeTracking.eye_left self = Some el ->
  GazeTracking.eye_right self = Some er ->
  (within_aperture (Pupil.x (Eye.pupil el)) (fst (Eye.center el)) ->
   within_aperture (Pupil.x (Eye.pupil er)) (fst (Eye.center er)) ->
   exists q, GazeTracking.horizontal_ratio self = Ok (Some q)
             /\ (0 <= q)%Q /\ (q <= 1)%Q)
  /\ (within_aperture (Pupil.y (Eye.pupil el)) (snd (Eye.center el)) ->
      within_aperture (Pupil.y (Eye.pupil er)) (snd (Eye.center er)) ->
      exists q, GazeTracking.vertical_ratio self = Ok (Some q)
                /\ (0 <= q)%Q /\ (q <= 1)%Q).
Proof.
  intros Hloc Hl Hr.
  unfold GazeTracking.horizontal_ratio, GazeTracking.vertical_ratio.
  rewrite Hloc, Hl, Hr.
  split; intros Hwl Hwr;
    destruct (axis_ratio_in_unit_interval _ _ Hwl) as (ql & -> & Hl0 & Hl1);
    destruct (axis_ratio_in_unit_interval _ _ Hwr) as (qr & -> & Hr0 & Hr1);
    cbn [bind]; eexists; (split; [reflexivity |]); split;
    (apply Qle_shift_div_l; lra) || (apply Qle_shift_div_r; lra).
Qed.

(** X20. Whenever [horizontal_ratio] returns a ratio, [is_right] holds
    exactly when it is at most 0.65 and [is_left] exactly when it is at least
    0.65: one of the two always holds, both hold exactly at 0.65, and
    [is_center] returns [False]. *)
Theorem direction_flags_cover_every_ratio (self : GazeTracking.t) (q : Q) :
  GazeTracking.pupils_located self = true ->
  GazeTracking.horizontal_ratio self = Ok (Some q) ->
  (GazeTracking.is_right self = Ok (Some true) <-> (q <= 65 # 100)%Q)
  /\ (GazeTracking.is_left self = Ok (Some true) <-> (65 # 100 <= q)%Q)
  /\ (GazeTracking.is_right self = Ok (Some true)
      \/ GazeTracking.is_left self = Ok (Some true))
  /\ (GazeTracking.is_right self = Ok (Some true)
      /\ GazeTracking.is_left self = Ok (Some true) <-> (q == 65 # 100)%Q)
  /\ GazeTracking.is_center self = Ok (Some false).
Proof.
  intros Hloc Hratio.
  assert (Hright : GazeTracking.is_right self = Ok (Some (Qle_bool q (65 # 100)))).
  { unfold GazeTracking.is_right. rewrite Hloc, Hratio. reflexivity. }
  assert (Hleft : GazeTracking.is_left self = Ok (Some (Qle_bool (65 # 100) q))).
  { unfold GazeTracking.is_left. rewrite Hloc, Hratio. reflexivity. }
  assert (Hr : GazeTracking.is_right self = Ok (Some true) <-> (q <= 65 # 100)%Q).
  { rewrite Hright, <- Qle_bool_iff. split; [congruence | intros ->; reflexivity]. }
  assert (Hl : GazeTracking.is_left self = Ok (Some true) <-> (65 # 100 <= q)%Q).
  { rewrite Hleft, <- Qle_bool_iff. split; [congruence | intros ->; reflexivity]. }
  split; [exact Hr |]. split; [exact Hl |]. split; [| split].
  - destruct (Qlt_le_dec (65 # 100) q) as [Hgt | Hle].
    + right. apply Hl. lra.
    + left. apply Hr. exact Hle.
  - rewrite Hr, Hl. split; [intros [H1 H2]; lra | intros H; split; lra].
  - unfold GazeTracking.is_center. rewrite Hloc, Hright. cbn [bind].
    destruct (Qle_bool q (65 # 100)) eqn:Hb; cbn [GazeTracking.is_not_True];
      [reflexivity |].
    rewrite Hleft. cbn [bind].
    assert (Hge : Qle_bool (65 # 100) q = true).
    { apply Qle_bool_iff. apply Qlt_le_weak. apply Qnot_le_lt. intros Hle.
      apply Qle_bool_iff in Hle. congruence. }
    rewrite Hge. reflexivity.
Qed.

(** X21. With both pupils located, [is_blinking] raises exactly when one of
    the two eyes has no blink ratio, and the exception is a [TypeError];
    with both ratios present it returns whether their mean exceeds 3.8. *)
Theorem is_blinking_fails_iff_ratio_absent (self : GazeTracking.t)
    (el er : Eye.t) :
  GazeTracking.pupils_located self = true ->
  GazeTracking.eye_left self = Some el ->
  GazeTracking.eye_right self = Some er ->
  (GazeTracking.is_blinking self = Raise TypeError
   <-> Eye.blinking el = None \/ Eye.blinking er = None)
  /\ (forall e, GazeTracking.is_blinking self = Raise e -> e = TypeError)
  /\ (forall bl br,
        Eye.blinking el = Some bl -> Eye.blinking er = Some br ->
        exists b, GazeTracking.is_blinking self = Ok (Some b)
                  /\ (b = true <-> (38 # 10 < (bl + br) / 2)%Q)).
Proof.
  intros Hloc Hl Hr. unfold GazeTracking.is_blinking. rewrite Hloc, Hl, Hr.
  destruct (Eye.blinking el) as [bl |]; destruct (Eye.blinking er) as [br |].
  - split; [split; [discriminate | intros [H | H]; discriminate] |].
    split; [discriminate |].
    intros bl' br' Hbl Hbr. injection Hbl as <-. injection Hbr as <-.
    eexists. split; [reflexivity |]. apply Qlt_bool_iff.
  - split; [split; [intros _; right; reflexivity | reflexivity] |].
    split; [intros e He; congruence | discriminate].
  - split; [split; [intros _; left; reflexivity | reflexivity] |].
    split; [intros e He; congruence | discriminate].
  - split; [split; [intros _; left; reflexivity | reflexivity] |].
    split; [intros e He; congruence | discriminate].
Qed.

(** ** pupil.py and calibration.py: the two extremes of the threshold *)

Lemma sum_upto_const (n : nat) (g : nat -> Z) (k : Z) :
  (forall i, (i < n)%nat -> g i = k) -> sum_upto n g = Z.of_nat n * k.
Proof.
  induction n as [| n IH]; intros Hg; simpl sum_upto.
  - reflexivity.
  - rewrite IH by (intros; apply Hg; lia). rewrite (Hg n) by lia. lia.
Qed.

(** X22. Binarisation turns black exactly the pixels at or below the
    threshold. On a frame whose trimmed region is not empty, the occupancy
    of the frame binarised at [t] is 1 when every pixel is at most [t] and 0
    when every pixel is above [t]. *)
Theorem occupancy_extremes (a : ndarray) (t : Z) :
  0 < trimmed_pixels a ->
  ((forall i j, px a i j <= t) ->
   exists s, Calibration.iris_size (cv2_threshold a t) = Ok s /\ (s == 1)%Q)
  /\ ((forall i j, t < px a i j) ->
      exists s, Calibration.iris_size (cv2_threshold a t) = Ok s /\ (s == 0)%Q).
Proof.
  intros Hpos.
  assert (Hn : trimmed_pixels (cv2_threshold a t) = trimmed_pixels a) by reflexivity.
  assert (Hq : (0 < inject_Z (trimmed_pixels a))%Q).
  { change 0%Q with (inject_Z 0). rewrite <- Zlt_Qlt. exact Hpos. }
  split; intros Hall; rewrite iris_size_eq, Hn;
    (destruct (Z.eqb_spec (trimmed_pixels a) 0) as [Hz | _]; [lia |]);
    eexists; (split; [reflexivity |]).
  - assert (Hcount : countNonZero (slice2 (cv2_threshold a t) 5 (-5) 5 (-5)) = 0).
    { unfold countNonZero. rewrite (sum_upto_const _ _ 0); [lia |].
      intros i _. rewrite (sum_upto_const _ _ 0); [lia |].
      intros j _. rewrite trim_px. unfold cv2_threshold. cbn [px height width].
      rewrite Z.gtb_ltb.
      destruct (Z.ltb_spec t (px a (i + Nat.min 5 (height a))%nat
                                   (j + Nat.min 5 (width a))%nat)) as [Hlt | _];
        [| reflexivity].
      specialize (Hall (i + Nat.min 5 (height a))%nat
                       (j + Nat.min 5 (width a))%nat). lia. }
    rewrite Hcount, Z.sub_0_r. field. lra.
  - assert (Hcount : countNonZero (slice2 (cv2_threshold a t) 5 (-5) 5 (-5))
                     = trimmed_pixels a).
    { unfold countNonZero. rewrite trim_height, trim_width.
      cbn [cv2_threshold height width].
      rewrite (sum_upto_const _ _ (Z.of_nat (width a - 10)));
        [reflexivity |].
      intros i _. rewrite (sum_upto_const _ _ 1); [lia |].
      intros j _. rewrite trim_px. unfold cv2_threshold. cbn [px height width].
      rewrite Z.gtb_ltb.
      destruct (Z.ltb_spec t (px a (i + Nat.min 5 (height a))%nat
                                   (j + Nat.min 5 (width a))%nat)) as [_ | Hge];
        [reflexivity |].
      specialize (Hall (i + Nat.min 5 (height a))%nat
                       (j + Nat.min 5 (width a))%nat). lia. }
    rewrite Hcount, Z.sub_diag. field. lra.
Qed.

(** ** The further properties on concrete inputs *)

Lemma eye_pupil_uses_side_threshold_witness :
  exists cal' eye,
    Eye.new (E := white_double) (white 40 60)
      (eye_landmarks open_left open_right) 0 Calibration.init
    = (cal', Ok (Some eye))
    /\ Calibration.threshold cal' 0
       = Ok (Some (Pupil.threshold (Eye.pupil eye))).
Proof.
  destruct (Eye.new (E := white_double) (white 40 60)
              (eye_landmarks open_left open_right) 0 Calibration.init)
    as [cal' [[eye |] | e]] eqn:Hnew.
  - exists cal', eye. split; [reflexivity |].
    apply (proj1 (eye_pupil_uses_side_threshold (E := white_double)
                    (white 40 60) (eye_landmarks open_left open_right) 0
                    Calibration.init cal' eye (or_introl eq_refl) Hnew)).
  - vm_compute in Hnew. discriminate Hnew.
  - vm_compute in Hnew. discriminate Hnew.
Defined.

Lemma eye_build_fails_iff_small_crop_witness :
  (1 = 0 \/ 1 = 1)
  /\ (0 < Calibration.nb_frames Calibration.init)%nat
  /\ snd (Eye.new (E := white_double) (white 40 60)
            (eye_landmarks open_left flat_right) 1 Calibration.init)
     = Raise ZeroDivisionError
  /\ is_empty (eye_crop (E := white_double) (white 40 60)
                 (eye_landmarks open_left flat_right) Eye.RIGHT_EYE_POINTS)
     = false
  /\ Calibration.is_complete Calibration.init = false
  /\ small_crop (eye_crop (E := white_double) (white 40 60)
                   (eye_landmarks open_left flat_right) Eye.RIGHT_EYE_POINTS).
Proof.
  split; [right; reflexivity |]. split; [simpl; lia |].
  split; [vm_compute; reflexivity |].
  apply (proj1 (proj1 (proj2 (eye_build_fails_iff_small_crop (E := white_double)
                         (white 40 60) (eye_landmarks open_left flat_right) 1
                         Calibration.init (or_intror eq_refl)
                         (Nat.lt_0_succ 19))))).
  vm_compute. reflexivity.
Defined.

(** Once the calibration is complete, building the eye 3 pixels from the
    edge still fails: its crop is empty and OpenCV rejects it. *)
Lemma eye_build_fails_on_empty_crop :
  Calibration.is_complete calibrated = true
  /\ is_empty (eye_crop (E := white_double) (white 40 60)
                 (eye_landmarks edge_left open_right) Eye.LEFT_EYE_POINTS)
     = true
  /\ Eye.new (E := white_double) (white 40 60)
       (eye_landmarks edge_left open_right) 0 calibrated
     = (calibrated, Raise Cv2Error).
Proof. repeat split; vm_compute; reflexivity. Qed.


(** A [refresh] on the face at the edge fails with [cv2.error], before and
    after calibration. *)
Lemma refresh_fails_on_empty_crop :
  snd (GazeTracking.refresh (E := white_double) GazeTracking.init edge_face)
  = Raise Cv2Error
  /\ snd (GazeTracking.refresh (E := white_double)
            (run (E := white_double) GazeTracking.init (repeat open_face 20))
            edge_face)
     = Raise Cv2Error.
Proof. split; vm_compute; reflexivity. Qed.


Lemma refresh_sets_both_eyes_or_none_witness :
  reachable (E := white_double) GazeTracking.init
  /\ snd (GazeTracking.refresh (E := white_double) GazeTracking.init open_face)
     = Ok tt
  /\ ((GazeTracking.faces open_face = []
       /\ GazeTracking.eye_left
            (fst (GazeTracking.refresh (E := white_double)
                    GazeTracking.init open_face)) = None
       /\ GazeTracking.eye_right
            (fst (GazeTracking.refresh (E := white_double)
                    GazeTracking.init open_face)) = None
       /\ GazeTracking.pupils_located
            (fst (GazeTracking.refresh (E := white_double)
                    GazeTracking.init open_face)) = false)
      \/ (GazeTracking.faces open_face <> []
          /\ exists el er,
               GazeTracking.eye_left
                 (fst (GazeTracking.refresh (E := white_double)
                         GazeTracking.init open_face)) = Some el
               /\ GazeTracking.eye_right
                    (fst (GazeTracking.refresh (E := white_double)
                            GazeTracking.init open_face)) = Some er)).
Proof.
  assert (Hok : snd (GazeTracking.refresh (E := white_double)
                       GazeTracking.init open_face) = Ok tt)
    by (vm_compute; reflexivity).
  split; [apply reachable_init |]. split; [exact Hok |].
  apply (refresh_sets_both_eyes_or_none (E := white_double)
           GazeTracking.init open_face reachable_init Hok).
Defined.

Lemma sample_lists_are_append_only_witness :
  reachable (E := white_double) GazeTracking.init
  /\ exists l r,
       Calibration.thresholds_left
         (GazeTracking.calibration
            (run (E := white_double) GazeTracking.init [flat_face; open_face]))
       = Calibration.thresholds_left
           (GazeTracking.calibration GazeTracking.init) ++ l
       /\ Calibration.thresholds_right
            (GazeTracking.calibration
               (run (E := white_double) GazeTracking.init [flat_face; open_face]))
          = Calibration.thresholds_right
              (GazeTracking.calibration GazeTracking.init) ++ r
       /\ (length r <= length l <= length [flat_face; open_face])%nat.
Proof.
  split; [apply reachable_init |].
  apply (sample_lists_are_append_only (E := white_double)
           [flat_face; open_face] GazeTracking.init reachable_init).
Defined.

Lemma session_thresholds_between_5_and_95_witness :
  reachable (E := white_double)
    (fst (GazeTracking.refresh (E := white_double) GazeTracking.init open_face))
  /\ Calibration.threshold
       (GazeTracking.calibration
          (fst (GazeTracking.refresh (E := white_double)
                  GazeTracking.init open_face))) 0 = Ok (Some 5)
  /\ 5 <= 5 <= 95.
Proof.
  assert (Hreach : reachable (E := white_double)
            (fst (GazeTracking.refresh (E := white_double)
                    GazeTracking.init open_face)))
    by (apply reachable_refresh; apply reachable_init).
  assert (Hthr : Calibration.threshold
            (GazeTracking.calibration
               (fst (GazeTracking.refresh (E := white_double)
                       GazeTracking.init open_face))) 0 = Ok (Some 5))
    by (vm_compute; reflexivity).
  split; [exact Hreach |]. split; [exact Hthr |].
  apply (proj2 (proj2 (session_thresholds_between_5_and_95 (E := white_double)
                         _ Hreach)) 0 5 (or_introl eq_refl) Hthr).
Defined.

Lemma calibration_completes_after_20_faces_witness :
  all_return (E := white_double) GazeTracking.init [open_face; open_face]
  /\ Forall (fun obs => GazeTracking.faces obs <> []) [open_face; open_face]
  /\ length (Calibration.thresholds_left
               (GazeTracking.calibration
                  (run (E := white_double) GazeTracking.init
                     [open_face; open_face])))
     = Nat.min (length [open_face; open_face]) 20.
Proof.
  assert (Hall : all_return (E := white_double) GazeTracking.init
                   [open_face; open_face])
    by (repeat split; vm_compute; reflexivity).
  assert (Hfaces : Forall (fun obs => GazeTracking.faces obs <> [])
                     [open_face; open_face])
    by (repeat constructor; discriminate).
  split; [exact Hall |]. split; [exact Hfaces |].
  apply (proj1 (calibration_completes_after_20_faces (E := white_double)
                  [open_face; open_face] Hall Hfaces)).
Defined.

Lemma two_contours_smaller_is_the_iris_witness :
  Pupil.image_processing (E := blob_double) (white 11 18) 5
  = Ok (binarised (E := blob_double) (white 11 18) 5)
  /\ findContours (External := blob_double)
       (binarised (E := blob_double) (white 11 18) 5)
     = [crop_border; iris_blob]
  /\ exists pupil,
       Pupil.detect_iris (E := blob_double) (white 11 18) 5 = Ok pupil
       /\ Pupil.x pupil = Some 9 /\ Pupil.y pupil = Some 5.
Proof.
  split; [reflexivity |]. split; [reflexivity |].
  destruct (two_contours_smaller_is_the_iris (E := blob_double) (white 11 18) 5
              (binarised (E := blob_double) (white 11 18) 5)
              crop_border iris_blob eq_refl eq_refl)
    as (pupil & Hpupil & _ & _ & _ & Hcentroid).
  exists pupil. split; [exact Hpupil |].
  destruct Hcentroid as [Hx Hy]; [vm_compute; discriminate |].
  rewrite Hx, Hy. split; vm_compute; reflexivity.
Defined.

Lemma blinking_ratio_absent_iff_lids_meet_witness :
  Eye._middle_point (2, 0) (6, 0) <> Eye._middle_point (2, 4) (6, 4)
  /\ exists ratio,
       Eye._blinking_ratio (E := white_double)
         (eye_landmarks open_left open_right) Eye.RIGHT_EYE_POINTS = Some ratio
       /\ (ratio == 2)%Q.
Proof.
  split; [vm_compute; discriminate |].
  rewrite (proj2 (blinking_ratio_absent_iff_lids_meet (E := white_double)
                    (eye_landmarks open_left open_right) Eye.RIGHT_EYE_POINTS))
    by (vm_compute; discriminate).
  eexists. split; [reflexivity | vm_compute; reflexivity].
Defined.

Lemma isolate_crops_the_margin_box_witness :
  let xs := map fst (map (eye_landmarks open_left open_right) Eye.LEFT_EYE_POINTS) in
  let ys := map snd (map (eye_landmarks open_left open_right) Eye.LEFT_EYE_POINTS) in
  5 <= Eye.np_min xs /\ Eye.np_max xs + 5 <= Z.of_nat (width (white 40 60))
  /\ 5 <= Eye.np_min ys /\ Eye.np_max ys + 5 <= Z.of_nat (height (white 40 60))
  /\ snd (fst (fst (Eye._isolate (E := white_double) (white 40 60)
                      (eye_landmarks open_left open_right) Eye.LEFT_EYE_POINTS)))
     = (Eye.np_min xs - 5, Eye.np_min ys - 5).
Proof.
  cbv zeta.
  split; [vm_compute; discriminate |]. split; [vm_compute; discriminate |].
  split; [vm_compute; discriminate |]. split; [vm_compute; discriminate |].
  apply (isolate_crops_the_margin_box (E := white_double) (white 40 60)
           (eye_landmarks open_left open_right) Eye.LEFT_EYE_POINTS);
    vm_compute; discriminate.
Defined.

Lemma isolate_crop_is_empty_past_the_edge_witness :
  let xs := map fst (map (eye_landmarks edge_left open_right) Eye.LEFT_EYE_POINTS) in
  Eye.np_min xs < 5 /\ 0 <= Eye.np_max xs + 5
  /\ Eye.np_max xs - Eye.np_min xs + 10 <= Z.of_nat (width (white 40 60))
  /\ width (eye_crop (E := white_double) (white 40 60)
              (eye_landmarks edge_left open_right) Eye.LEFT_EYE_POINTS) = 0%nat.
Proof.
  cbv zeta.
  split; [vm_compute; reflexivity |]. split; [vm_compute; discriminate |].
  split; [vm_compute; discriminate |].
  apply (proj1 (isolate_crop_is_empty_past_the_edge (E := white_double)
                  (white 40 60) (eye_landmarks edge_left open_right)
                  Eye.LEFT_EYE_POINTS));
    vm_compute; reflexivity || discriminate.
Defined.

Lemma queries_absent_unless_pupils_located_witness :
  GazeTracking.pupils_located GazeTracking.init = false
  /\ GazeTracking.horizontal_ratio GazeTracking.init = Ok None
  /\ GazeTracking.is_blinking GazeTracking.init = Ok None.
Proof.
  split; [reflexivity |].
  destruct (proj2 (queries_absent_unless_pupils_located GazeTracking.init) eq_refl)
    as (_ & _ & Hh & _ & _ & _ & _ & Hb).
  split; [exact Hh | exact Hb].
Defined.

Lemma ratios_fail_iff_crop_has_no_aperture_witness :
  let narrow := located_eye (5, 7) 14 10 5 7 (Some (3 # 1)) in
  let wide := located_eye (25, 5) 14 18 9 7 (Some (3 # 1)) in
  ((fst (Eye.center narrow) == 5)%Q \/ (fst (Eye.center wide) == 5)%Q)
  /\ GazeTracking.horizontal_ratio
       (GazeTracking.mk (Some narrow) (Some wide) calibrated)
     = Raise ZeroDivisionError.
Proof.
  cbv zeta. split; [left; vm_compute; reflexivity |].
  apply (proj1 (ratios_fail_iff_crop_has_no_aperture
                  (GazeTracking.mk
                     (Some (located_eye (5, 7) 14 10 5 7 (Some (3 # 1))))
                     (Some (located_eye (25, 5) 14 18 9 7 (Some (3 # 1))))
                     calibrated)
                  _ _ 5 7 9 7 eq_refl eq_refl eq_refl eq_refl eq_refl eq_refl)).
  left. vm_compute. reflexivity.
Defined.

Lemma ratios_between_0_and_1_inside_aperture_witness :
  GazeTracking.pupils_located centred = true
  /\ within_aperture (Some 105) (210 / 2)
  /\ exists q, GazeTracking.horizontal_ratio centred = Ok (Some q)
               /\ (0 <= q)%Q /\ (q <= 1)%Q.
Proof.
  assert (Hin : within_aperture (Some 105) (210 / 2)).
  { exists 105. split; [reflexivity |].
    repeat split; vm_compute; reflexivity || discriminate. }
  split; [reflexivity |]. split; [exact Hin |].
  apply (proj1 (ratios_between_0_and_1_inside_aperture centred _ _
                  eq_refl eq_refl eq_refl)); exact Hin.
Defined.

Lemma direction_flags_cover_every_ratio_witness :
  GazeTracking.pupils_located centred = true
  /\ GazeTracking.horizontal_ratio centred = Ok (Some (168000 # 320000))
  /\ GazeTracking.is_center centred = Ok (Some false).
Proof.
  split; [reflexivity |]. split; [vm_compute; reflexivity |].
  apply (proj2 (proj2 (proj2 (proj2
    (direction_flags_cover_every_ratio centred (168000 # 320000) eq_refl
       ltac:(vm_compute; reflexivity)))))).
Defined.

Lemma is_blinking_fails_iff_ratio_absent_witness :
  GazeTracking.pupils_located centred = true
  /\ exists b, GazeTracking.is_blinking centred = Ok (Some b)
               /\ (b = true <-> (38 # 10 < (3 + 3) / 2)%Q).
Proof.
  split; [reflexivity |].
  apply (proj2 (proj2 (is_blinking_fails_iff_ratio_absent centred _ _
                         eq_refl eq_refl eq_refl)) 3%Q 3%Q eq_refl eq_refl).
Defined.

Lemma occupancy_extremes_witness :
  0 < trimmed_pixels (white 12 12)
  /\ exists s, Calibration.iris_size (cv2_threshold (white 12 12) 95) = Ok s
               /\ (s == 0)%Q.
Proof.
  split; [reflexivity |].
  apply (proj2 (occupancy_extremes (white 12 12) 95 eq_refl)).
  intros i j. reflexivity.
Defined.
